(** * Client scripts of the banking application: session, authenticated
      requests and form/button handlers

    A shallow embedding of [static/js/auth.js] (the login, registration
    and logout handlers, the wrapped [window.fetch], the HTMX
    [htmx:configRequest] hook, and the page script with the transfer,
    deposit and admin-action handlers), followed by the properties of
    these handlers.

    Conventions.
    - The browser state a handler can read or write is the record
      [World]; a handler is a function in the monad [Js], which threads
      the world and a completion ([Normal] or [Throw], for [try]/[catch]).
    - An [async] handler is cut at its [await]: [*_start] is the part
      that runs synchronously up to and including the call of [fetch];
      [*_settle] is the continuation, run with the [FetchOutcome] that
      the network delivers.  Between the two, other handlers may run.
    - Strings are byte strings; numbers produced by [parseFloat] are
      exact decimals (binary rounding of doubles is not represented). *)

From Stdlib Require Import String Ascii ZArith NArith DecimalString.
From stdpp Require Import base option list gmap strings.

Open Scope string_scope.
Open Scope list_scope.
Set Warnings "-register-all".

(** ** Strings *)

Module Str.

(** The double-quote character, for the HTML attribute values. *)
Definition dq : string := String "034" "".
(** Line feed. *)
Definition nl : string := String "010" "".

Fixpoint spaces (n : nat) : string :=
  match n with
  | O => ""
  | S k => String " " (spaces k)
  end.

(** [String.prototype.startsWith]. *)
Definition startsWith (s pre : string) : bool := String.prefix pre s.


(** White space of [String.prototype.trim] in the ASCII range:
    TAB, LF, VT, FF, CR and SPACE. *)
Definition is_space (c : ascii) : bool :=
  let n := nat_of_ascii c in
  (Nat.eqb n 9 || Nat.eqb n 10 || Nat.eqb n 11 || Nat.eqb n 12
   || Nat.eqb n 13 || Nat.eqb n 32)%bool.

Fixpoint trimStart (s : string) : string :=
  match s with
  | String c s' => if is_space c then trimStart s' else s
  | "" => ""
  end.

Fixpoint trimEnd (s : string) : string :=
  match s with
  | "" => ""
  | String c s' =>
      match trimEnd s' with
      | "" => if is_space c then "" else String c ""
      | t => String c t
      end
  end.

(** [String.prototype.trim]. *)
Definition trim (s : string) : string := trimEnd (trimStart s).

Definition nonempty (s : string) : bool :=
  match s with "" => false | _ => true end.

End Str.

(** ** JavaScript values read from response bodies *)

(** The value [response.json()] resolves to.  A JSON number is carried
    as the text [Number.prototype.toString] gives for it (["0"] for both
    zeros), which is all the handlers use of it. *)
Inductive Json : Type :=
| JNull
| JBool (b : bool)
| JNum (canon : string)
| JStr (s : string)
| JArr (xs : list Json)
| JObj (fields : list (string * Json)).

(** The result of reading a property: [None] is [undefined]. *)
Definition JsVal : Type := option Json.

(** [ToBoolean]. *)
Definition truthy (v : JsVal) : bool :=
  match v with
  | None => false
  | Some JNull => false
  | Some (JBool b) => b
  | Some (JNum c) => negb (String.eqb c "0")
  | Some (JStr s) => Str.nonempty s
  | Some (JArr _) => true
  | Some (JObj _) => true
  end.

(** [ToString] on the values a parsed body can hold.  An array joins
    its elements with commas, [null] elements giving the empty string. *)
Fixpoint json_to_string (j : Json) : string :=
  match j with
  | JNull => "null"
  | JBool true => "true"
  | JBool false => "false"
  | JNum c => c
  | JStr s => s
  | JArr xs =>
      (fix join (l : list Json) : string :=
         match l with
         | [] => ""
         | [x] => match x with JNull => "" | _ => json_to_string x end
         | x :: l' =>
             (match x with JNull => "" | _ => json_to_string x end)
               +:+ "," +:+ join l'
         end) xs
  | JObj _ => "[object Object]"
  end.

Definition to_string (v : JsVal) : string :=
  match v with
  | None => "undefined"
  | Some j => json_to_string j
  end.

(** [a || b] where [b] is a string literal. *)
Definition or_else (v : JsVal) (fallback : string) : JsVal :=
  if truthy v then v else Some (JStr fallback).

Fixpoint assoc (k : string) (fields : list (string * Json)) : JsVal :=
  match fields with
  | [] => None
  | (k', v) :: rest => if String.eqb k k' then Some v else assoc k rest
  end.

(** ** Numbers of the page script *)

(** The value of [parseFloat]: not-a-number, an infinity, or the exact
    decimal [(-1)^neg * mant * 10^exp10]. *)
Inductive Num : Type :=
| NaN
| Infinity (neg : bool)
| Finite (neg : bool) (mant : N) (exp10 : Z).

Module Number.

Definition is_digit (c : ascii) : bool :=
  let n := nat_of_ascii c in (Nat.leb 48 n && Nat.leb n 57)%bool.

Definition digit_val (c : ascii) : N := N.of_nat (nat_of_ascii c - 48).

(** Longest prefix of decimal digits: its value, its length, the rest. *)
Fixpoint digits (acc : N) (len : nat) (s : string) : N * nat * string :=
  match s with
  | String c s' =>
      if is_digit c then digits (10 * acc + digit_val c)%N (S len) s'
      else (acc, len, s)
  | "" => (acc, len, s)
  end.

(** [ExponentPart]: [e] or [E], an optional sign and at least one
    digit; otherwise the exponent is absent and the value is [0]. *)
Definition exponent (s : string) : Z :=
  match s with
  | String c s' =>
      if (Ascii.eqb c "e" || Ascii.eqb c "E")%bool then
        let '(neg, s'') :=
          match s' with
          | String "-" t => (true, t)
          | String "+" t => (false, t)
          | _ => (false, s')
          end in
        let '(v, len, _) := digits 0 0 s'' in
        match len with
        | O => 0%Z
        | _ => if neg then (- Z.of_N v)%Z else Z.of_N v
        end
      else 0%Z
  | "" => 0%Z
  end.

(** [StrUnsignedDecimalLiteral] at the head of [s]. *)
Definition unsigned (neg : bool) (s : string) : Num :=
  if String.prefix "Infinity" s then Infinity neg
  else
    let '(iv, ilen, r) := digits 0 0 s in
    match r with
    | String "." r' =>
        let '(v, flen, r'') := digits iv 0 r' in
        match ilen, flen with
        | O, O => NaN
        | _, _ => Finite neg v (exponent r'' - Z.of_nat flen)
        end
    | _ =>
        match ilen with
        | O => NaN
        | _ => Finite neg iv (exponent r)
        end
    end.

(** [parseFloat(s)]: leading white space is skipped, then the longest
    prefix that is a [StrDecimalLiteral] is read. *)
Definition parseFloat (s : string) : Num :=
  match Str.trimStart s with
  | String "-" t => unsigned true t
  | String "+" t => unsigned false t
  | t => unsigned false t
  end.

(** The integer part with en-US grouping separators. *)
Fixpoint group_rev (k : nat) (rev_digits : list ascii) : list ascii :=
  match rev_digits with
  | [] => []
  | c :: rest =>
      match k, rest with
      | 2, _ :: _ => c :: "," %char :: group_rev 0 rest
      | _, _ => c :: group_rev (S k) rest
      end
  end.

Definition grouped (n : N) : string :=
  let ds := list_ascii_of_string (NilZero.string_of_uint (N.to_uint n)) in
  string_of_list_ascii (rev (group_rev 0 (rev ds))).

Definition two_digits (n : N) : string :=
  let s := NilZero.string_of_uint (N.to_uint n) in
  if (n <? 10)%N then "0" +:+ s else s.

(** [|x|] in cents, rounded half away from zero (the default
    [roundingMode] of [Intl.NumberFormat], ["halfExpand"]). *)
Definition cents (mant : N) (exp10 : Z) : N :=
  let e := (exp10 + 2)%Z in
  if (0 <=? e)%Z then (mant * 10 ^ Z.to_N e)%N
  else let d := (10 ^ Z.to_N (- e))%N in ((2 * mant + d) / (2 * d))%N.

(** [new Intl.NumberFormat('en-US', {style: 'currency',
    currency: 'USD'}).format(x)]. *)
Definition format_usd (x : Num) : string :=
  match x with
  | NaN => "$NaN"
  | Infinity neg => (if neg then "-" else "") +:+ "$∞"
  | Finite neg mant exp10 =>
      let c := cents mant exp10 in
      (if neg then "-" else "") +:+ "$" +:+ grouped (c / 100)
        +:+ "." +:+ two_digits (c mod 100)
  end.

End Number.

(** [window.formatCurrency]. *)
Definition formatCurrency (amount : Num) : string := Number.format_usd amount.

(** ** The page *)

(** A DOM element, with the attributes the scripts touch. *)
Record Element : Type := {
  textContent : string;
  classList : list string;
  disabled : bool;
  dataset : gmap string string
}.

Definition set_textContent (s : string) (e : Element) : Element :=
  {| textContent := s; classList := classList e;
     disabled := disabled e; dataset := dataset e |}.

Definition set_classList (l : list string) (e : Element) : Element :=
  {| textContent := textContent e; classList := l;
     disabled := disabled e; dataset := dataset e |}.

Definition set_disabled (b : bool) (e : Element) : Element :=
  {| textContent := textContent e; classList := classList e;
     disabled := b; dataset := dataset e |}.

(** [classList.add(c)] and [classList.remove(c)]: a token list has no
    duplicates, and removing an absent token does nothing. *)
Definition classList_add (c : string) (e : Element) : Element :=
  set_classList
    (if bool_decide (c ∈ classList e) then classList e else classList e ++ [c]) e.

Definition classList_remove (c : string) (e : Element) : Element :=
  set_classList (filter (λ x, x ≠ c) (classList e)) e.

(** The four notification kinds; any other [type] is styled as [Info]. *)
Inductive Severity : Type := Success | Error | Warning | Info.

Definition severity_of (type : string) : Severity :=
  if String.eqb type "success" then Success
  else if String.eqb type "error" then Error
  else if String.eqb type "warning" then Warning
  else Info.

(** A banner appended by [showNotification]: its classes, the icon (the
    SVG markup is fixed per severity) and the message placed in it. *)
Record Notification : Type := {
  n_classes : list string;
  n_icon : Severity;
  n_message : string
}.

(** A value placed in a request body before [JSON.stringify]. *)
Inductive BodyVal : Type :=
| BUndefined
| BNull
| BStr (s : string)
| BBool (b : bool)
| BNum (n : Num).

(** [FormData.get] gives [null] for a missing field. *)
Definition of_field (v : option string) : BodyVal :=
  match v with Some s => BStr s | None => BNull end.

(** [dataset.x] is [undefined] for a missing attribute. *)
Definition of_data (v : option string) : BodyVal :=
  match v with Some s => BStr s | None => BUndefined end.

(** A call that reached the browser's own [fetch] ([originalFetch]). *)
Record Request : Type := {
  r_url : string;
  r_method : option string;
  r_headers : option (gmap string string);
  r_body : option (list (string * BodyVal))
}.

(** What a [setTimeout] callback of these scripts does. *)
Inductive TimerAction : Type :=
| TNavigate (url : string)   (* window.location.href = url *)
| TReload                    (* window.location.reload() *)
| TFade (index : nat).       (* fade out and remove a notification *)

Record World : Type := {
  localStorage : gmap string string;
  cookie_writes : list string;       (* assignments to document.cookie, oldest first *)
  location : option string;          (* the last window.location.href = url, if any *)
  timers : list (nat * TimerAction); (* setTimeout calls: delay in ms, callback *)
  network : list Request;            (* requests issued, oldest first *)
  console : list string;             (* console.error labels *)
  headers : gmap string string;      (* the page script's shared [headers] object *)
  login_error : option Element;            (* #login-error *)
  register_error : option Element;         (* #register-error *)
  register_success : option Element;       (* #register-success *)
  deposit_button : option Element;         (* #deposit-form button[type=submit] *)
  deposit_result : option string;          (* innerHTML of #deposit-result *)
  notification_container : option (list Notification); (* #notification-container *)
  buttons : list Element;                  (* the admin action buttons *)
  form_resets : list string                (* forms on which reset() was called *)
}.

(** Field updates. *)

Definition upd_localStorage (f : gmap string string → gmap string string) (w : World) : World :=
  {| localStorage := f (localStorage w);
     cookie_writes := cookie_writes w; location := location w;
     timers := timers w; network := network w; console := console w;
     headers := headers w; login_error := login_error w;
     register_error := register_error w;
     register_success := register_success w;
     deposit_button := deposit_button w;
     deposit_result := deposit_result w;
     notification_container := notification_container w;
     buttons := buttons w; form_resets := form_resets w |}.

Definition upd_cookie_writes (f : list string → list string) (w : World) : World :=
  {| localStorage := localStorage w;
     cookie_writes := f (cookie_writes w); location := location w;
     timers := timers w; network := network w; console := console w;
     headers := headers w; login_error := login_error w;
     register_error := register_error w;
     register_success := register_success w;
     deposit_button := deposit_button w;
     deposit_result := deposit_result w;
     notification_container := notification_container w;
     buttons := buttons w; form_resets := form_resets w |}.

Definition upd_location (f : option string → option string) (w : World) : World :=
  {| localStorage := localStorage w;
     cookie_writes := cookie_writes w; location := f (location w);
     timers := timers w; network := network w; console := console w;
     headers := headers w; login_error := login_error w;
     register_error := register_error w;
     register_success := register_success w;
     deposit_button := deposit_button w;
     deposit_result := deposit_result w;
     notification_container := notification_container w;
     buttons := buttons w; form_resets := form_resets w |}.

Definition upd_timers (f : list (nat * TimerAction) → list (nat * TimerAction)) (w : World) : World :=
  {| localStorage := localStorage w;
     cookie_writes := cookie_writes w; location := location w;
     timers := f (timers w); network := network w;
     console := console w; headers := headers w;
     login_error := login_error w;
     register_error := register_error w;
     register_success := register_success w;
     deposit_button := deposit_button w;
     deposit_result := deposit_result w;
     notification_container := notification_container w;
     buttons := buttons w; form_resets := form_resets w |}.

Definition upd_network (f : list Request → list Request) (w : World) : World :=
  {| localStorage := localStorage w;
     cookie_writes := cookie_writes w; location := location w;
     timers := timers w; network := f (network w);
     console := console w; headers := headers w;
     login_error := login_error w;
     register_error := register_error w;
     register_success := register_success w;
     deposit_button := deposit_button w;
     deposit_result := deposit_result w;
     notification_container := notification_container w;
     buttons := buttons w; form_resets := form_resets w |}.

Definition upd_console (f : list string → list string) (w : World) : World :=
  {| localStorage := localStorage w;
     cookie_writes := cookie_writes w; location := location w;
     timers := timers w; network := network w;
     console := f (console w); headers := headers w;
     login_error := login_error w;
     register_error := register_error w;
     register_success := register_success w;
     deposit_button := deposit_button w;
     deposit_result := deposit_result w;
     notification_container := notification_container w;
     buttons := buttons w; form_resets := form_resets w |}.

Definition upd_headers (f : gmap string string → gmap string string) (w : World) : World :=
  {| localStorage := localStorage w;
     cookie_writes := cookie_writes w; location := location w;
     timers := timers w; network := network w; console := console w;
     headers := f (headers w); login_error := login_error w;
     register_error := register_error w;
     register_success := register_success w;
     deposit_button := deposit_button w;
     deposit_result := deposit_result w;
     notification_container := notification_container w;
     buttons := buttons w; form_resets := form_resets w |}.

Definition upd_login_error (f : option Element → option Element) (w : World) : World :=
  {| localStorage := localStorage w;
     cookie_writes := cookie_writes w; location := location w;
     timers := timers w; network := network w; console := console w;
     headers := headers w; login_error := f (login_error w);
     register_error := register_error w;
     register_success := register_success w;
     deposit_button := deposit_button w;
     deposit_result := deposit_result w;
     notification_container := notification_container w;
     buttons := buttons w; form_resets := form_resets w |}.

Definition upd_register_error (f : option Element → option Element) (w : World) : World :=
  {| localStorage := localStorage w;
     cookie_writes := cookie_writes w; location := location w;
     timers := timers w; network := network w; console := console w;
     headers := headers w; login_error := login_error w;
     register_error := f (register_error w);
     register_success := register_success w;
     deposit_button := deposit_button w;
     deposit_result := deposit_result w;
     notification_container := notification_container w;
     buttons := buttons w; form_resets := form_resets w |}.

Definition upd_register_success (f : option Element → option Element) (w : World) : World :=
  {| localStorage := localStorage w;
     cookie_writes := cookie_writes w; location := location w;
     timers := timers w; network := network w; console := console w;
     headers := headers w; login_error := login_error w;
     register_error := register_error w;
     register_success := f (register_success w);
     deposit_button := deposit_button w;
     deposit_result := deposit_result w;
     notification_container := notification_container w;
     buttons := buttons w; form_resets := form_resets w |}.

Definition upd_deposit_button (f : option Element → option Element) (w : World) : World :=
  {| localStorage := localStorage w;
     cookie_writes := cookie_writes w; location := location w;
     timers := timers w; network := network w; console := console w;
     headers := headers w; login_error := login_error w;
     register_error := register_error w;
     register_success := register_success w;
     deposit_button := f (deposit_button w);
     deposit_result := deposit_result w;
     notification_container := notification_container w;
     buttons := buttons w; form_resets := form_resets w |}.

Definition upd_deposit_result (f : option string → option string) (w : World) : World :=
  {| localStorage := localStorage w;
     cookie_writes := cookie_writes w; location := location w;
     timers := timers w; network := network w; console := console w;
     headers := headers w; login_error := login_error w;
     register_error := register_error w;
     register_success := register_success w;
     deposit_button := deposit_button w;
     deposit_result := f (deposit_result w);
     notification_container := notification_container w;
     buttons := buttons w; form_resets := form_resets w |}.

Definition upd_notification_container (f : option (list Notification) → option (list Notification)) (w : World) : World :=
  {| localStorage := localStorage w;
     cookie_writes := cookie_writes w; location := location w;
     timers := timers w; network := network w; console := console w;
     headers := headers w; login_error := login_error w;
     register_error := register_error w;
     register_success := register_success w;
     deposit_button := deposit_button w;
     deposit_result := deposit_result w;
     notification_container := f (notification_container w);
     buttons := buttons w; form_resets := form_resets w |}.

Definition upd_buttons (f : list Element → list Element) (w : World) : World :=
  {| localStorage := localStorage w;
     cookie_writes := cookie_writes w; location := location w;
     timers := timers w; network := network w; console := console w;
     headers := headers w; login_error := login_error w;
     register_error := register_error w;
     register_success := register_success w;
     deposit_button := deposit_button w;
     deposit_result := deposit_result w;
     notification_container := notification_container w;
     buttons := f (buttons w); form_resets := form_resets w |}.

Definition upd_form_resets (f : list string → list string) (w : World) : World :=
  {| localStorage := localStorage w;
     cookie_writes := cookie_writes w; location := location w;
     timers := timers w; network := network w; console := console w;
     headers := headers w; login_error := login_error w;
     register_error := register_error w;
     register_success := register_success w;
     deposit_button := deposit_button w;
     deposit_result := deposit_result w;
     notification_container := notification_container w;
     buttons := buttons w; form_resets := f (form_resets w) |}.

(** ** Handlers as state transformers with exceptions *)

Inductive Completion (A : Type) : Type :=
| Normal (a : A)
| Throw.
Arguments Normal {A} a.
Arguments Throw {A}.

Definition Js (A : Type) : Type := World → Completion A * World.

#[global] Instance Js_ret : MRet Js := λ A a w, (Normal a, w).

#[global] Instance Js_bind : MBind Js := λ A B f m w,
  match m w with
  | (Normal a, w') => f a w'
  | (Throw, w') => (Throw, w')
  end.

Definition throw {A : Type} : Js A := λ w, (Throw, w).

(** [try { body } catch (error) { handler }]. *)
Definition try_catch {A : Type} (body handler : Js A) : Js A := λ w,
  match body w with
  | (Normal a, w') => (Normal a, w')
  | (Throw, w') => handler w'
  end.

Definition gets {A : Type} (f : World → A) : Js A := λ w, (Normal (f w), w).
Definition modify (f : World → World) : Js unit := λ w, (Normal tt, f w).

(** [if (c) { m }] *)
Definition when (c : bool) (m : Js unit) : Js unit := if c then m else mret tt.

(** The world a handler leaves, whether it completed or threw. *)
Definition exec {A : Type} (m : Js A) (w : World) : World := (m w).2.

(** *** Browser primitives *)

Definition setItem (k v : string) : Js unit :=
  modify (upd_localStorage (insert k v)).
Definition removeItem (k : string) : Js unit :=
  modify (upd_localStorage (delete k)).
(** [document.cookie = s] *)
Definition set_cookie (s : string) : Js unit :=
  modify (upd_cookie_writes (λ l, l ++ [s])).
(** [window.location.href = url] *)
Definition navigate (url : string) : Js unit :=
  modify (upd_location (λ _, Some url)).
Definition setTimeout (a : TimerAction) (ms : nat) : Js unit :=
  modify (upd_timers (λ l, l ++ [(ms, a)])).
Definition console_error (label : string) : Js unit :=
  modify (upd_console (λ l, l ++ [label])).

(** *** Responses *)

Record Response : Type := {
  ok : bool;                (* response.ok: the status is 2xx *)
  body : option Json        (* what response.json() resolves to; None: it rejects *)
}.

Inductive FetchOutcome : Type :=
| Rejected                  (* transport failure: the promise of fetch rejects *)
| Resolved (r : Response).

(** [await fetch(...)], once the outcome is known. *)
Definition await_response (o : FetchOutcome) : Js Response :=
  match o with
  | Rejected => throw
  | Resolved r => mret r
  end.

(** [await response.json()]. *)
Definition json (r : Response) : Js Json :=
  match body r with
  | None => throw
  | Some j => mret j
  end.

(** [data.name] for the names the handlers read ([access_token],
    [token_type], [detail], [cheque_number]): a [TypeError] on [null],
    the field of an object, [undefined] on anything else. *)
Definition prop (data : Json) (name : string) : Js JsVal :=
  match data with
  | JNull => throw
  | JObj fields => mret (assoc name fields)
  | _ => mret None
  end.

(** ** The authentication interceptors (first script) *)

(** [token && tokenType] on the two results of [localStorage.getItem]
    ([st !! k]: [None] is [null]), with the header
    value [`${tokenType} ${token}`] when it holds. *)
Definition credential (st : gmap string string) : option string :=
  match st !! "access_token", st !! "token_type" with
  | Some token, Some tokenType =>
      if Str.nonempty token && Str.nonempty tokenType
      then Some (tokenType +:+ " " +:+ token)
      else None
  | _, _ => None
  end.

(** The truth value of [h['Authorization']]. *)
Definition has_authorization (h : gmap string string) : bool :=
  match h !! "Authorization" with
  | Some v => Str.nonempty v
  | None => false
  end.

(** The wrapper installed on [window.fetch], as a function of the
    storage, the url and [options.headers] ([None]: no [headers]
    property); the result is [options.headers] as [originalFetch]
    receives it. *)
Definition fetch_headers (st : gmap string string) (url : string)
    (hs : option (gmap string string)) : option (gmap string string) :=
  if Str.startsWith url "/api/" then
    match credential st with
    | Some value =>
        let h := default ∅ hs in
        if negb (has_authorization h)
        then Some (<["Authorization" := value]> h)
        else Some h
    | None => hs
    end
  else hs.

(** The [htmx:configRequest] listener, on [evt.detail.path] and
    [evt.detail.headers]. *)
Definition htmx_configRequest (st : gmap string string) (path : string)
    (h : gmap string string) : gmap string string :=
  if Str.startsWith path "/api/" then
    match credential st with
    | Some value => <["Authorization" := value]> h
    | None => h
    end
  else h.

(** Where the [headers] property of an [options] object comes from: it
    is absent, an object literal of the call, or the page script's
    shared [headers] object (which the wrapper then mutates in place). *)
Inductive HeadersRef : Type :=
| HAbsent
| HLiteral (h : gmap string string)
| HShared.

Record Options : Type := {
  o_method : option string;
  o_headers : HeadersRef;
  o_body : option (list (string * BodyVal))
}.

Definition deref (r : HeadersRef) (w : World) : option (gmap string string) :=
  match r with
  | HAbsent => None
  | HLiteral h => Some h
  | HShared => Some (headers w)
  end.

(** A call of [window.fetch(url, options)] after the wrapper is
    installed: the header map is completed, written back when it is the
    shared object, and the request goes out. *)
Definition fetch (url : string) (o : Options) : Js unit := λ w,
  let hs := fetch_headers (localStorage w) url (deref (o_headers o) w) in
  let write_back (shared : gmap string string) :=
    match o_headers o, hs with
    | HShared, Some h => h
    | _, _ => shared
    end in
  (Normal tt,
   upd_network (λ l, l ++ [{| r_url := url; r_method := o_method o;
                              r_headers := hs; r_body := o_body o |}])
     (upd_headers write_back w)).

(** ** Login, registration and logout (first script) *)

(** The banner operations of the form handlers. *)
Definition hide_banner (e : Element) : Element :=
  classList_add "hidden" (set_textContent "" e).

Definition show_banner (text : string) (e : Element) : Element :=
  classList_remove "hidden" (set_textContent text e).

Definition json_headers : gmap string string :=
  {[ "Content-Type" := "application/json" ]}.

Record LoginForm : Type := {
  lf_username : option string;
  lf_password : option string;
  lf_remember_me : option string    (* 'on' when the box is checked *)
}.

(** [formData.get('remember_me') === 'on'] *)
Definition rememberMe (form : LoginForm) : bool :=
  bool_decide (lf_remember_me form = Some "on").

(** The login [submit] handler up to its first [await]. *)
Definition login_submit_start (form : LoginForm) : Js unit :=
  modify (upd_login_error (fmap hide_banner));;
  fetch "/auth/login"
    {| o_method := Some "POST";
       o_headers := HLiteral json_headers;
       o_body := Some [("username", of_field (lf_username form));
                       ("password", of_field (lf_password form));
                       ("remember_me", BBool (rememberMe form))] |}.

(** The cookie written on a successful login. *)
Definition login_cookie (access_token : JsVal) (remember : bool) : string :=
  "access_token=Bearer " +:+ to_string access_token
    +:+ "; path=/; max-age=" +:+ (if remember then "604800" else "86400")
    +:+ "; SameSite=Lax".

(** The rest of the login handler, once the request has settled. *)
Definition login_submit_settle (form : LoginForm) (o : FetchOutcome) : Js unit :=
  try_catch
    (response ← await_response o;
     data ← json response;
     if ok response then
       access_token ← prop data "access_token";
       setItem "access_token" (to_string access_token);;
       token_type ← prop data "token_type";
       setItem "token_type" (to_string token_type);;
       set_cookie (login_cookie access_token (rememberMe form));;
       navigate "/dashboard"
     else
       errorMessage ← gets login_error;
       match errorMessage with
       | Some _ =>
           detail ← prop data "detail";
           modify (upd_login_error
                     (fmap (show_banner (to_string (or_else detail "Login failed")))))
       | None => mret tt
       end)
    (console_error "Login error:";;
     modify (upd_login_error (fmap (show_banner "An error occurred during login")))).

Definition login_submit (form : LoginForm) (o : FetchOutcome) : Js unit :=
  login_submit_start form;; login_submit_settle form o.

Record RegisterForm : Type := {
  rf_username : option string;
  rf_password : option string;
  rf_password_confirm : option string
}.

(** [password !== passwordConfirm] *)
Definition passwords_differ (form : RegisterForm) : bool :=
  negb (bool_decide (rf_password form = rf_password_confirm form)).

(** The registration [submit] handler up to its first [await]; the
    result tells whether a request is now pending ([false]: the handler
    has returned). *)
Definition register_submit_start (form : RegisterForm) : Js bool :=
  modify (upd_register_error (fmap hide_banner));;
  if passwords_differ form then
    modify (upd_register_error (fmap (show_banner "Passwords do not match")));;
    mret false
  else
    fetch "/auth/register"
      {| o_method := Some "POST";
         o_headers := HLiteral json_headers;
         o_body := Some [("username", of_field (rf_username form));
                         ("password", of_field (rf_password form))] |};;
    mret true.

Definition register_submit_settle (o : FetchOutcome) : Js unit :=
  try_catch
    (response ← await_response o;
     data ← json response;
     if ok response then
       modify (upd_register_success
                 (fmap (show_banner "Registration successful! Redirecting to login...")));;
       setTimeout (TNavigate "/login") 2000
     else
       errorMessage ← gets register_error;
       match errorMessage with
       | Some _ =>
           detail ← prop data "detail";
           modify (upd_register_error
                     (fmap (show_banner (to_string (or_else detail "Registration failed")))))
       | None => mret tt
       end)
    (console_error "Registration error:";;
     modify (upd_register_error
               (fmap (show_banner "An error occurred during registration")))).

Definition register_submit (form : RegisterForm) (o : FetchOutcome) : Js unit :=
  pending ← register_submit_start form;
  when pending (register_submit_settle o).

(** The string that expires the session cookie. *)
Definition expired_cookie : string :=
  "access_token=; path=/; expires=Thu, 01 Jan 1970 00:00:00 GMT".

(** The logout [click] handler up to its [await]. *)
Definition logout_click_start : Js unit :=
  fetch "/auth/logout"
    {| o_method := Some "POST"; o_headers := HAbsent; o_body := None |}.

(** The rest of the logout handler: the clean-up follows the [await]
    inside the [try]; the [catch] only logs. *)
Definition logout_click_settle (o : FetchOutcome) : Js unit :=
  try_catch
    (response ← await_response o;
     removeItem "access_token";;
     removeItem "token_type";;
     set_cookie expired_cookie;;
     navigate "/login")
    (console_error "Logout error:").

Definition logout_click (o : FetchOutcome) : Js unit :=
  logout_click_start;; logout_click_settle o.

(** ** The page script (second script) *)

(** The [headers] object built when the page has loaded:
    [Content-Type], and [Authorization] when a session is stored. *)
Definition page_headers (st : gmap string string) : gmap string string :=
  match credential st with
  | Some value => <["Authorization" := value]> json_headers
  | None => json_headers
  end.

(** The part of the [DOMContentLoaded] listener that has state. *)
Definition DOMContentLoaded : Js unit :=
  modify (λ w, upd_headers (λ _, page_headers (localStorage w)) w).

Definition base_classes : list string :=
  ["flex"; "items-center"; "p-4"; "mb-4"; "rounded-lg"; "shadow-lg";
   "animate-fadeIn"].

Definition severity_classes (s : Severity) : list string :=
  match s with
  | Success => ["bg-green-100"; "text-green-800"; "border"; "border-green-200"]
  | Error => ["bg-red-100"; "text-red-800"; "border"; "border-red-200"]
  | Warning => ["bg-yellow-100"; "text-yellow-800"; "border"; "border-yellow-200"]
  | Info => ["bg-blue-100"; "text-blue-800"; "border"; "border-blue-200"]
  end.

(** [window.showNotification(message, type)]: nothing without the
    container; otherwise a banner is appended and its removal is
    scheduled after five seconds. *)
Definition showNotification (message type : string) : Js unit := λ w,
  match notification_container w with
  | None => (Normal tt, w)
  | Some shown =>
      let sev := severity_of type in
      let n := {| n_classes := base_classes ++ severity_classes sev;
                  n_icon := sev; n_message := message |} in
      (Normal tt,
       upd_timers (λ l, l ++ [(5000, TFade (length shown))])
         (upd_notification_container (λ _, Some (shown ++ [n])) w))
  end.

(** [form.reset()] *)
Definition reset_form (id : string) : Js unit :=
  modify (upd_form_resets (λ l, l ++ [id])).

(** [parseFloat(formData.get(name))]; a missing field is [null], which
    [parseFloat] reads as the string ["null"]. *)
Definition field_number (v : option string) : Num :=
  Number.parseFloat (default "null" v).

(** *** Transfer *)

Record TransferForm : Type := {
  tf_receiver_username : option string;
  tf_amount : option string
}.

Definition transfer_submit_start (form : TransferForm) : Js unit :=
  fetch "/api/transfer"
    {| o_method := Some "POST";
       o_headers := HShared;
       o_body := Some [("receiver_username", of_field (tf_receiver_username form));
                       ("amount", BNum (field_number (tf_amount form)))] |}.

Definition transfer_submit_settle (o : FetchOutcome) : Js unit :=
  try_catch
    (response ← await_response o;
     data ← json response;
     if ok response then
       showNotification "Transfer successful!" "success";;
       reset_form "transfer-form";;
       setTimeout TReload 2000
     else
       detail ← prop data "detail";
       showNotification (to_string (or_else detail "Transfer failed")) "error")
    (console_error "Transfer error:";;
     showNotification "An error occurred during transfer" "error").

Definition transfer_submit (form : TransferForm) (o : FetchOutcome) : Js unit :=
  transfer_submit_start form;; transfer_submit_settle o.

(** *** Deposit *)

(** The submit button while the request is in flight. *)
Definition processing (b : Element) : Element :=
  set_textContent "Processing..."
    (classList_remove "hover:bg-green-600"
       (classList_remove "bg-bank-success"
          (classList_add "bg-gray-400" (set_disabled true b)))).

(** The submit button after a failure. *)
Definition reenabled (b : Element) : Element :=
  set_textContent "Request Deposit"
    (classList_add "hover:bg-green-600"
       (classList_add "bg-bank-success"
          (classList_remove "bg-gray-400" (set_disabled false b)))).

Definition attr (name value : string) : string :=
  name +:+ "=" +:+ Str.dq +:+ value +:+ Str.dq.

(** A line of the template literal: line feed, indentation, text. *)
Definition line (indent : nat) (text : string) : string :=
  Str.nl +:+ Str.spaces indent +:+ text.

(** The markup assigned to [#deposit-result] on success. *)
Definition deposit_panel (chequeNumber : string) (amount : Num) : string :=
  line 12 ("<div " +:+ attr "class" "mt-4 p-4 border border-green-200 rounded-lg bg-green-50" +:+ ">")
  +:+ line 14 ("<p " +:+ attr "class" "text-green-700 mb-2"
                +:+ ">Deposit request created successfully!</p>")
  +:+ line 14 ("<p " +:+ attr "class" "text-gray-700 mb-2"
                +:+ ">Cheque Number: <strong>" +:+ chequeNumber +:+ "</strong></p>")
  +:+ line 14 ("<p " +:+ attr "class" "text-gray-700 mb-2"
                +:+ ">Amount: <strong>" +:+ formatCurrency amount +:+ "</strong></p>")
  +:+ line 14 ("<p " +:+ attr "class" "text-gray-700 mb-4"
                +:+ ">Your deposit is pending approval by an administrator.</p>")
  +:+ line 14 ("<a " +:+ attr "href" ("/api/deposit/" +:+ chequeNumber +:+ "/pdf")
                +:+ " " +:+ attr "target" "_blank"
                +:+ " " +:+ attr "class" "btn btn-primary" +:+ ">")
  +:+ line 16 "Download Cheque PDF"
  +:+ line 14 "</a>"
  +:+ line 12 "</div>"
  +:+ line 10 "".

Record DepositForm : Type := { df_amount : option string }.

(** The first statements of the deposit [submit] handler: the button is
    looked up and put in its processing state.  Without a submit button
    the assignment throws, outside any [try]. *)
Definition deposit_disable : Js unit :=
  submitButton ← gets deposit_button;
  match submitButton with
  | None => throw
  | Some _ => modify (upd_deposit_button (fmap processing))
  end.

(** The [options] of the deposit request. *)
Definition deposit_options (form : DepositForm) : Options :=
  {| o_method := Some "POST";
     o_headers := HShared;
     o_body := Some [("amount", BNum (field_number (df_amount form)))] |}.

Definition deposit_request (form : DepositForm) : Js unit :=
  fetch "/api/deposit" (deposit_options form).

(** The deposit handler up to its first [await]. *)
Definition deposit_submit_start (form : DepositForm) : Js unit :=
  deposit_disable;; deposit_request form.

Definition deposit_submit_settle (form : DepositForm) (o : FetchOutcome) : Js unit :=
  try_catch
    (response ← await_response o;
     data ← json response;
     if ok response then
       showNotification "Deposit request created successfully!" "success";;
       chequeNumber ← prop data "cheque_number";
       resultContainer ← gets deposit_result;
       match resultContainer with
       | None => throw
       | Some _ =>
           modify (upd_deposit_result
                     (λ _, Some (deposit_panel (to_string chequeNumber)
                                   (field_number (df_amount form)))))
       end;;
       reset_form "deposit-form";;
       setTimeout TReload 3000
     else
       detail ← prop data "detail";
       showNotification (to_string (or_else detail "Deposit request failed")) "error";;
       modify (upd_deposit_button (fmap reenabled)))
    (console_error "Deposit error:";;
     showNotification "An error occurred during deposit request" "error";;
     modify (upd_deposit_button (fmap reenabled))).

Definition deposit_submit (form : DepositForm) (o : FetchOutcome) : Js unit :=
  deposit_submit_start form;; deposit_submit_settle form o.

(** *** Admin actions *)

(** The two listeners (on [[data-deposit-action]] and on
    [[data-withdrawal-action]] buttons) are the same code up to these
    strings. *)
Inductive Kind : Type := Deposit | Withdrawal.

Module Kind.
(** [dataset] keys *)
Definition id_key (k : Kind) : string :=
  match k with Deposit => "depositId" | Withdrawal => "withdrawalId" end.
Definition action_key (k : Kind) : string :=
  match k with Deposit => "depositAction" | Withdrawal => "withdrawalAction" end.
(** path segment of the endpoint *)
Definition segment (k : Kind) : string :=
  match k with Deposit => "deposit" | Withdrawal => "withdraw" end.
(** the resource kind in messages *)
Definition noun (k : Kind) : string :=
  match k with Deposit => "deposit" | Withdrawal => "withdrawal" end.
Definition Noun (k : Kind) : string :=
  match k with Deposit => "Deposit" | Withdrawal => "Withdrawal" end.
End Kind.

(** [`${x}`] for a [dataset] entry. *)
Definition data_string (v : option string) : string := default "undefined" v.

(** What the continuation of a click keeps from its synchronous part. *)
Record Click : Type := {
  originalText : string;
  action : option string
}.

(** The click handler of button [i] up to its first [await]; [None]
    when it returned at once ([this.disabled]).  The listener is attached
    to the buttons of the page only, so no handler runs for an index
    without a button. *)
Definition action_click_start (k : Kind) (i : nat) : Js (option Click) :=
  this ← gets (λ w, buttons w !! i);
  match this with
  | None => mret None
  | Some b =>
      if disabled b then mret None
      else
        modify (upd_buttons
                  (alter (λ e, set_textContent "Processing..." (set_disabled true e)) i));;
        fetch ("/api/admin/" +:+ Kind.segment k +:+ "/"
                 +:+ data_string (dataset b !! Kind.id_key k) +:+ "/status")
          {| o_method := Some "POST";
             o_headers := HShared;
             o_body := Some [("status", of_data (dataset b !! Kind.action_key k))] |};;
        mret (Some {| originalText := Str.trim (textContent b);
                      action := dataset b !! Kind.action_key k |})
  end.

(** [this.disabled = false; this.textContent = originalText] *)
Definition release (c : Click) (i : nat) : Js unit :=
  modify (upd_buttons
            (alter (λ e, set_textContent (originalText c) (set_disabled false e)) i)).

Definition fallback_message (k : Kind) (c : Click) : string :=
  "Failed to " +:+ data_string (action c) +:+ " " +:+ Kind.noun k.

Definition error_message (k : Kind) (c : Click) : string :=
  "An error occurred while " +:+ data_string (action c) +:+ "ing " +:+ Kind.noun k.

Definition action_click_settle (k : Kind) (i : nat) (c : Click)
    (o : FetchOutcome) : Js unit :=
  try_catch
    (response ← await_response o;
     data ← json response;
     if ok response then
       showNotification
         (Kind.Noun k +:+ " " +:+ data_string (action c) +:+ " successfully!") "success";;
       setTimeout TReload 2000
     else
       detail ← prop data "detail";
       showNotification (to_string (or_else detail (fallback_message k c))) "error";;
       release c i)
    (console_error (Kind.Noun k +:+ " action error:");;
     showNotification (error_message k c) "error";;
     release c i).

Definition action_click (k : Kind) (i : nat) (o : FetchOutcome) : Js unit :=
  pending ← action_click_start k i;
  match pending with
  | Some c => action_click_settle k i c o
  | None => mret tt
  end.

(** ** A page for the examples *)

Definition button (label : string) (data : gmap string string) : Element :=
  {| textContent := label; classList := []; disabled := false; dataset := data |}.

Definition banner : Element :=
  {| textContent := ""; classList := ["hidden"]; disabled := false; dataset := ∅ |}.

(** A page with every element the scripts look up, before the page
    script has run, over the given storage. *)
Definition page (st : gmap string string) : World :=
  {| localStorage := st; cookie_writes := []; location := None; timers := [];
     network := []; console := []; headers := ∅;
     login_error := Some banner; register_error := Some banner;
     register_success := Some banner;
     deposit_button :=
       Some {| textContent := "Request Deposit";
               classList := ["btn"; "bg-bank-success"; "hover:bg-green-600"];
               disabled := false; dataset := ∅ |};
     deposit_result := Some "";
     notification_container := Some [];
     buttons :=
       [button "Approve" {[ "depositId" := "42"; "depositAction" := "approved" ]};
        button "Reject" {[ "depositId" := "42"; "depositAction" := "rejected" ]};
        button "Approve" {[ "withdrawalId" := "7"; "withdrawalAction" := "approved" ]}];
     form_resets := [] |}.

Definition session (token type : string) : gmap string string :=
  {[ "access_token" := token; "token_type" := type ]}.

(** ** Vocabulary of the properties *)

(** The request a call of the wrapped [fetch] issues in world [w]. *)
Definition sent (url : string) (o : Options) (w : World) : Request :=
  {| r_url := url; r_method := o_method o;
     r_headers := fetch_headers (localStorage w) url (deref (o_headers o) w);
     r_body := o_body o |}.

(** The [Authorization] header of a request, if it has one. *)
Definition authorization (r : Request) : option string :=
  h ← r_headers r; h !! "Authorization".

(** The interceptor as the specification words it (section 4.2): a
    request whose path begins with [/api/] gets the header
    [Authorization: <tokenType> <accessToken>] from the stored session,
    unless the caller already supplied one, which is never overwritten;
    without a session the request proceeds as it is. *)
Definition AuthInterceptor_spec (st : gmap string string) (path : string)
    (h : gmap string string) : gmap string string :=
  if Str.startsWith path "/api/" then
    match st !! "access_token", st !! "token_type" with
    | Some token, Some tokenType =>
        match h !! "Authorization" with
        | Some _ => h
        | None => <["Authorization" := tokenType +:+ " " +:+ token]> h
        end
    | _, _ => h
    end
  else h.

(** Local session state after a logout that took effect. *)
Definition session_cleared (w : World) : Prop :=
  localStorage w !! "access_token" = None
  ∧ localStorage w !! "token_type" = None
  ∧ last (cookie_writes w) = Some expired_cookie
  ∧ location w = Some "/login".

(** Another tab of the same origin replaces the stored session (storage
    is shared between tabs; the page and its scripts stay as they are). *)
Definition storage_replaced (st : gmap string string) (w : World) : World :=
  upd_localStorage (λ _, st) w.

(** The request carries the credential of the session now stored. *)
Definition carries_current_credential (w : World) (r : Request) : Prop :=
  ∃ token type,
    localStorage w !! "access_token" = Some token
    ∧ localStorage w !! "token_type" = Some type
    ∧ authorization r = Some (type +:+ " " +:+ token).

(** [data.name] when it does not throw. *)
Definition field (data : Json) (name : string) : JsVal :=
  match data with
  | JObj fields => assoc name fields
  | _ => None
  end.







(** The world after [showNotification(message, type)], field by field. *)
Definition notified (message type : string) (w : World) : World :=
  let n := {| n_classes := base_classes ++ severity_classes (severity_of type);
              n_icon := severity_of type; n_message := message |} in
  upd_timers
    (λ l, match notification_container w with
          | Some shown => l ++ [(5000, TFade (length shown))]
          | None => l
          end)
    (upd_notification_container (fmap (λ shown, shown ++ [n])) w).

(** The example page once its script has run, with a session stored. *)
Definition loaded_page : World :=
  exec DOMContentLoaded (page (session "abc" "Bearer")).

(** A response 400 whose body carries a [detail]. *)
Definition refusal (detail : string) : FetchOutcome :=
  Resolved {| ok := false; body := Some (JObj [("detail", JStr detail)]) |}.

From Stdlib Require DecimalPos.

(** ** The HTMX listeners of the page script *)

(** What the two listeners read of their event: the id of the swap
    target, the status of the request, and [JSON.parse] of its response
    text ([None]: the text is not JSON and [JSON.parse] throws). *)
Record HtmxEvent : Type := {
  target_id : string;
  xhr_status : nat;
  xhr_json : option Json
}.

(** [JSON.parse(evt.detail.xhr.responseText)] *)
Definition parse_response (e : HtmxEvent) : Js Json :=
  match xhr_json e with
  | None => throw
  | Some j => mret j
  end.

(** The [htmx:afterSwap] listener; [message] is read like the fields of
    the other bodies. *)
Definition htmx_afterSwap (e : HtmxEvent) : Js unit :=
  if String.eqb (target_id e) "quick-result" then
    if Nat.eqb (xhr_status e) 200 || Nat.eqb (xhr_status e) 201 then
      try_catch
        (responseData ← parse_response e;
         message ← prop responseData "message";
         if truthy message
         then showNotification (to_string message) "success"
         else mret tt)
        (mret tt)
    else mret tt
  else mret tt.

(** The [htmx:responseError] listener. *)
Definition htmx_responseError (e : HtmxEvent) : Js unit :=
  try_catch
    (responseData ← parse_response e;
     detail ← prop responseData "detail";
     if truthy detail
     then showNotification (to_string detail) "error"
     else showNotification "An error occurred" "error")
    (showNotification "An error occurred" "error").

(** ** The page as a sequence of events *)

(** What can happen on the page between two loads: a listener runs up
    to its [await], a pending request settles and the continuation of
    its listener runs, an HTMX event fires, or another tab replaces the
    stored session.  A settlement is not tied to a start here, so a
    sequence of events covers every interleaving of the handlers (and
    more). *)
Inductive Event : Type :=
| LoginStart (form : LoginForm)
| LoginSettle (form : LoginForm) (o : FetchOutcome)
| RegisterStart (form : RegisterForm)
| RegisterSettle (o : FetchOutcome)
| LogoutStart
| LogoutSettle (o : FetchOutcome)
| TransferStart (form : TransferForm)
| TransferSettle (o : FetchOutcome)
| DepositStart (form : DepositForm)
| DepositSettle (form : DepositForm) (o : FetchOutcome)
| ActionStart (k : Kind) (i : nat)
| ActionSettle (k : Kind) (i : nat) (c : Click) (o : FetchOutcome)
| AfterSwap (e : HtmxEvent)
| ResponseError (e : HtmxEvent)
| OtherTab (st : gmap string string).

Definition dispatch (ev : Event) (w : World) : World :=
  match ev with
  | LoginStart form => exec (login_submit_start form) w
  | LoginSettle form o => exec (login_submit_settle form o) w
  | RegisterStart form => exec (register_submit_start form) w
  | RegisterSettle o => exec (register_submit_settle o) w
  | LogoutStart => exec logout_click_start w
  | LogoutSettle o => exec (logout_click_settle o) w
  | TransferStart form => exec (transfer_submit_start form) w
  | TransferSettle o => exec (transfer_submit_settle o) w
  | DepositStart form => exec (deposit_submit_start form) w
  | DepositSettle form o => exec (deposit_submit_settle form o) w
  | ActionStart k i => exec (action_click_start k i) w
  | ActionSettle k i c o => exec (action_click_settle k i c o) w
  | AfterSwap e => exec (htmx_afterSwap e) w
  | ResponseError e => exec (htmx_responseError e) w
  | OtherTab st => storage_replaced st w
  end.

(** The events in order, oldest first. *)
Fixpoint run_events (evs : list Event) (w : World) : World :=
  match evs with
  | [] => w
  | ev :: rest => run_events rest (dispatch ev w)
  end.

(** The events of the first script that write the session. *)
Definition writes_session (ev : Event) : bool :=
  match ev with
  | LoginSettle _ _ | LogoutSettle _ | OtherTab _ => true
  | _ => false
  end.

(** ** Vocabulary of the further properties *)






(** The events in which a listener calls [fetch]. *)
Definition issues_request (ev : Event) : bool :=
  match ev with
  | LoginStart _ | RegisterStart _ | LogoutStart
  | TransferStart _ | DepositStart _ | ActionStart _ _ => true
  | _ => false
  end.

(** The outcomes on which the login handler reaches its success branch
    and completes it: a 2xx response whose body is JSON and not [null]. *)
Definition login_succeeds (o : FetchOutcome) : bool :=
  match o with
  | Resolved r =>
      match ok r, body r with
      | true, Some JNull => false
      | true, Some _ => true
      | _, _ => false
      end
  | Rejected => false
  end.



(** The banner [showNotification(message, type)] builds. *)
Definition notification (message type : string) : Notification :=
  {| n_classes := base_classes ++ severity_classes (severity_of type);
     n_icon := severity_of type; n_message := message |}.

(** No reload of the page is scheduled. *)
Definition no_reload (w : World) : Prop :=
  ∀ ms, (ms, TReload) ∉ timers w.



(** ** Properties *)

Lemma showNotification_notified message type w :
  showNotification message type w = (Normal tt, notified message type w).
Proof.
  unfold showNotification, notified. destruct w as [].
  cbn. by destruct notification_container0.
Qed.

(** Running a handler on a symbolic world: the handlers and the monad
    are unfolded, and each notification is replaced by its effect. *)
Ltac run :=
  unfold login_submit, login_submit_start, login_submit_settle,
    register_submit, register_submit_start, register_submit_settle,
    logout_click, logout_click_start, logout_click_settle,
    transfer_submit, transfer_submit_start, transfer_submit_settle,
    deposit_submit, deposit_submit_start, deposit_submit_settle,
    deposit_disable, deposit_request,
    action_click, action_click_start, action_click_settle, release,
    DOMContentLoaded, await_response, json, prop,
    setItem, removeItem, set_cookie, navigate, setTimeout,
    console_error, reset_form in *;
  unfold exec, mbind, Js_bind, mret, Js_ret, try_catch, when, gets, modify,
    throw in *; cbn in *;
  repeat (rewrite showNotification_notified; cbn).

(** *** The wrapped [fetch] and the HTMX hook *)

Lemma fetch_network url o w :
  network (exec (fetch url o) w) = network w ++ [sent url o w].
Proof. reflexivity. Qed.

Lemma fetch_localStorage url o w :
  localStorage (exec (fetch url o) w) = localStorage w.
Proof. reflexivity. Qed.

Lemma credential_Some st token type :
  st !! "access_token" = Some token → st !! "token_type" = Some type →
  token ≠ "" → type ≠ "" →
  credential st = Some (type +:+ " " +:+ token).
Proof.
  intros Ha Ht Hne1 Hne2. unfold credential. rewrite Ha, Ht.
  destruct token; [done|]. destruct type; [done|]. reflexivity.
Qed.

Lemma credential_None st :
  ¬ (is_Some (st !! "access_token") ∧ is_Some (st !! "token_type")) →
  credential st = None.
Proof.
  intros H. unfold credential.
  destruct (st !! "access_token") eqn:Ha; [|done].
  destruct (st !! "token_type") eqn:Ht; [|done].
  exfalso. apply H. eauto.
Qed.

Lemma credential_inv st v :
  credential st = Some v →
  ∃ token type, st !! "access_token" = Some token ∧ st !! "token_type" = Some type
    ∧ token ≠ "" ∧ type ≠ "" ∧ v = type +:+ " " +:+ token.
Proof.
  unfold credential. intros H.
  destruct (st !! "access_token") as [token|]; [|done].
  destruct (st !! "token_type") as [type|]; [|done].
  destruct token; [done|]. destruct type; [done|].
  exists (String a token), (String a0 type). cbn in H. by simplify_eq.
Qed.

(** C10. Both interceptors add an [Authorization] header only when
    [access_token] and [token_type] are both in storage: when one of
    them (or both) is missing, the wrapped [fetch] passes
    [options.headers] on as it received it, the request goes out with
    exactly those headers, and the HTMX hook leaves the header map of
    the event as it was. *)
Theorem authorization_needs_both_items (w : World) (url : string) (o : Options)
    (path : string) (h : gmap string string) :
  ¬ (is_Some (localStorage w !! "access_token")
     ∧ is_Some (localStorage w !! "token_type")) →
  fetch_headers (localStorage w) url (deref (o_headers o) w) = deref (o_headers o) w
  ∧ network (exec (fetch url o) w)
    = network w ++ [{| r_url := url; r_method := o_method o;
                       r_headers := deref (o_headers o) w; r_body := o_body o |}]
  ∧ headers (exec (fetch url o) w) = headers w
  ∧ htmx_configRequest (localStorage w) path h = h.
Proof.
  intros Hmiss. apply credential_None in Hmiss.
  assert (Hf : fetch_headers (localStorage w) url (deref (o_headers o) w)
               = deref (o_headers o) w).
  { unfold fetch_headers. rewrite Hmiss. by destruct (Str.startsWith _ _). }
  split; [exact Hf|]. split; [|split].
  - rewrite fetch_network. unfold sent. by rewrite Hf.
  - unfold exec, fetch. cbn. rewrite Hf. by destruct (o_headers o).
  - unfold htmx_configRequest. rewrite Hmiss. by destruct (Str.startsWith _ _).
Qed.

(** With only a token type stored, a page-script request to the API
    goes out without [Authorization]. *)
Lemma authorization_needs_both_items_witness :
  let w := exec DOMContentLoaded (page {[ "token_type" := "Bearer" ]}) in
  authorization (sent "/api/transfer"
                   {| o_method := Some "POST"; o_headers := HShared; o_body := None |} w)
  = None
  ∧ htmx_configRequest (localStorage w) "/api/balance" ∅ = ∅.
Proof.
  intros w.
  destruct (authorization_needs_both_items w "/api/transfer"
              {| o_method := Some "POST"; o_headers := HShared; o_body := None |}
              "/api/balance" ∅) as (Hf & _ & _ & Hh).
  - intros [[t Ht] _]. vm_compute in Ht. discriminate.
  - split; [|exact Hh]. unfold authorization, sent. cbn [r_headers].
    rewrite Hf. vm_compute. reflexivity.
Defined.

(** The two interceptors agree on every request whose header map has no
    (non-empty) [Authorization] entry. *)
Lemma interceptors_agree_without_authorization st path (h : gmap string string) :
  has_authorization h = false →
  fetch_headers st path (Some h) = Some (htmx_configRequest st path h).
Proof.
  intros Hno. unfold fetch_headers, htmx_configRequest.
  destruct (Str.startsWith path "/api/"); [|done].
  destruct (credential st); [|done]. cbn. by rewrite Hno.
Qed.

(** Both interceptors against the specification's wording.  Stored
    values are taken non-empty, as the login handler's server sends
    them. *)
Lemma credential_spec st :
  (∀ v, st !! "access_token" = Some v → v ≠ "") →
  (∀ v, st !! "token_type" = Some v → v ≠ "") →
  credential st
  = match st !! "access_token", st !! "token_type" with
    | Some token, Some tokenType => Some (tokenType +:+ " " +:+ token)
    | _, _ => None
    end.
Proof.
  intros Ha Ht. unfold credential.
  destruct (st !! "access_token") as [token|]; [|done].
  destruct (st !! "token_type") as [type|]; [|done].
  specialize (Ha _ eq_refl). specialize (Ht _ eq_refl).
  destruct token; [done|]. by destruct type.
Qed.

Lemma fetch_wrapper_meets_spec st path (h : gmap string string) :
  (∀ v, st !! "access_token" = Some v → v ≠ "") →
  (∀ v, st !! "token_type" = Some v → v ≠ "") →
  h !! "Authorization" ≠ Some "" →
  fetch_headers st path (Some h) = Some (AuthInterceptor_spec st path h).
Proof.
  intros Ha Ht Hh. unfold fetch_headers, AuthInterceptor_spec.
  rewrite (credential_spec _ Ha Ht).
  destruct (Str.startsWith path "/api/"); [|done].
  destruct (st !! "access_token"); [|done].
  destruct (st !! "token_type"); [|done].
  cbn. unfold has_authorization.
  destruct (h !! "Authorization") as [v|]; [|done].
  by destruct v.
Qed.

Lemma htmx_hook_meets_spec_without_authorization st path (h : gmap string string) :
  (∀ v, st !! "access_token" = Some v → v ≠ "") →
  (∀ v, st !! "token_type" = Some v → v ≠ "") →
  h !! "Authorization" = None →
  htmx_configRequest st path h = AuthInterceptor_spec st path h.
Proof.
  intros Ha Ht Hh. unfold htmx_configRequest, AuthInterceptor_spec.
  rewrite (credential_spec _ Ha Ht), Hh.
  destruct (Str.startsWith path "/api/"); [|done].
  destruct (st !! "access_token"); [|done].
  by destruct (st !! "token_type").
Qed.

(** C2. The two delivery surfaces are not the same function.  On a
    request to [/api/transfer] whose header map already has
    [Authorization: Basic dXNlcg==], with the session [Bearer abc]
    stored, the wrapped [fetch] keeps the caller's header, as the
    specification asks, while the HTMX hook replaces it by
    [Bearer abc]. *)
Theorem interceptors_differ_on_supplied_authorization :
  let st := session "abc" "Bearer" in
  let h : gmap string string := {[ "Authorization" := "Basic dXNlcg==" ]} in
  AuthInterceptor_spec st "/api/transfer" h = h
  ∧ fetch_headers st "/api/transfer" (Some h) = Some h
  ∧ htmx_configRequest st "/api/transfer" h = {[ "Authorization" := "Bearer abc" ]}
  ∧ htmx_configRequest st "/api/transfer" h ≠ AuthInterceptor_spec st "/api/transfer" h
  ∧ fetch_headers st "/api/transfer" (Some h)
    ≠ Some (htmx_configRequest st "/api/transfer" h).
Proof.
  cbn zeta. split; [by vm_compute|]. split; [by vm_compute|]. split; [|split].
  - unfold htmx_configRequest. cbn. apply insert_singleton_eq.
  - intros H. vm_compute in H. discriminate.
  - intros H. vm_compute in H. discriminate.
Qed.

(** *** Logout *)

Lemma logout_start_network w :
  network (exec logout_click_start w)
  = network w ++ [{| r_url := "/auth/logout"; r_method := Some "POST";
                     r_headers := None; r_body := None |}].
Proof. reflexivity. Qed.

(** C1, as the code has it.  Whenever the logout call yields a
    response, whatever its status and body, the handler removes both
    storage keys, expires the cookie and navigates to [/login].  When
    the call is rejected (transport failure) the handler only logs the
    error: storage, cookie and location stay as they were. *)
Theorem logout_clears_session_on_any_response (w : World) :
  (∀ r : Response, session_cleared (exec (logout_click (Resolved r)) w))
  ∧ localStorage (exec (logout_click Rejected) w) = localStorage w
  ∧ cookie_writes (exec (logout_click Rejected) w) = cookie_writes w
  ∧ location (exec (logout_click Rejected) w) = location w
  ∧ console (exec (logout_click Rejected) w) = console w ++ ["Logout error:"].
Proof.
  split; [|by repeat split].
  intros r. unfold session_cleared. run. repeat split.
  - rewrite lookup_delete_ne by done. apply lookup_delete_eq.
  - apply lookup_delete_eq.
  - by rewrite last_snoc.
Qed.

(** C1 fails on a transport failure: a logged-in page whose logout
    request is rejected keeps its session and stays where it is. *)
Lemma logout_rejected_keeps_session :
  ¬ session_cleared (exec (logout_click Rejected) (page (session "abc" "Bearer"))).
Proof. intros [H _]. vm_compute in H. discriminate. Qed.

(** *** Requests to the API *)

(** C3, as the code has it.  With a non-empty [access_token] and
    [token_type] in storage, a request to a path under [/api/] whose
    header map has no non-empty [Authorization] entry goes out with
    [Authorization] equal to the token type, a space and the token, read
    from storage at the call; an entry the caller's header map already
    has is sent as it is.  A request to any other path goes out with the
    caller's headers unchanged. *)
Theorem api_request_authorization (w : World) (url : string) (o : Options)
    (token type : string) :
  localStorage w !! "access_token" = Some token →
  localStorage w !! "token_type" = Some type →
  token ≠ "" → type ≠ "" →
  network (exec (fetch url o) w) = network w ++ [sent url o w]
  ∧ (if Str.startsWith url "/api/" then
       match deref (o_headers o) w ≫= (.!! "Authorization") with
       | Some supplied =>
           authorization (sent url o w)
           = Some (if Str.nonempty supplied then supplied
                   else type +:+ " " +:+ token)
       | None => authorization (sent url o w) = Some (type +:+ " " +:+ token)
       end
     else r_headers (sent url o w) = deref (o_headers o) w).
Proof.
  intros Ha Ht Hne1 Hne2. split; [apply fetch_network|].
  unfold authorization, sent, fetch_headers. cbn [r_headers].
  destruct (Str.startsWith url "/api/"); [|done].
  rewrite (credential_Some _ _ _ Ha Ht Hne1 Hne2).
  unfold has_authorization.
  destruct (deref (o_headers o) w) as [h|]; cbn.
  - destruct (h !! "Authorization") as [v|] eqn:Hv; cbn.
    + destruct v; cbn; [apply lookup_insert_eq|done].
    + apply lookup_insert_eq.
  - apply lookup_insert_eq.
Qed.

(** The first API request of a page loaded without a session, issued
    after a session has appeared in storage. *)
Lemma api_request_authorization_witness :
  let w := storage_replaced (session "abc" "Bearer") (exec DOMContentLoaded (page ∅)) in
  authorization
    (sent "/api/transfer"
       {| o_method := Some "POST"; o_headers := HShared; o_body := None |} w)
  = Some "Bearer abc".
Proof.
  intros w.
  destruct (api_request_authorization w "/api/transfer"
              {| o_method := Some "POST"; o_headers := HShared; o_body := None |}
              "abc" "Bearer") as [_ H];
    [by vm_compute | by vm_compute | done | done |].
  exact H.
Defined.

(** C3 fails as stated on two counts.  The page script builds its
    header map once, when the page loads, and the wrapper leaves an
    [Authorization] entry alone: a page loaded under the session
    [Bearer old] still sends [Bearer old] on a transfer after the stored
    session has become [Bearer new].  And an item that is stored but
    empty counts as absent: with an empty [access_token] stored, a
    request to the API goes out without [Authorization]. *)
Lemma stale_page_headers_counterexample :
  (let form := {| tf_receiver_username := Some "bob"; tf_amount := Some "10" |} in
   let w := storage_replaced (session "new" "Bearer")
              (exec DOMContentLoaded (page (session "old" "Bearer"))) in
   ∃ r, last (network (exec (transfer_submit_start form) w)) = Some r
        ∧ r_url r = "/api/transfer"
        ∧ localStorage w !! "access_token" = Some "new"
        ∧ localStorage w !! "token_type" = Some "Bearer"
        ∧ authorization r = Some "Bearer old"
        ∧ ¬ carries_current_credential w r)
  ∧ (let w := page (session "" "Bearer") in
     let o := {| o_method := Some "GET"; o_headers := HAbsent; o_body := None |} in
     ∃ r, last (network (exec (fetch "/api/balance" o) w)) = Some r
          ∧ localStorage w !! "access_token" = Some ""
          ∧ localStorage w !! "token_type" = Some "Bearer"
          ∧ authorization r = None
          ∧ ¬ carries_current_credential w r).
Proof.
  split.
  - cbn zeta. eexists. split; [reflexivity|].
    split; [reflexivity|]. split; [by vm_compute|]. split; [by vm_compute|].
    split; [by vm_compute|].
    intros (token & type & Ha & Ht & Hr).
    vm_compute in Ha, Ht, Hr. by simplify_eq.
  - cbn zeta. eexists. split; [reflexivity|].
    split; [by vm_compute|]. split; [by vm_compute|]. split; [by vm_compute|].
    intros (token & type & _ & _ & Hr). vm_compute in Hr. discriminate.
Qed.

(** *** Login *)

Lemma login_success_world form w data :
  data ≠ JNull →
  exec (login_submit form (Resolved {| ok := true; body := Some data |})) w
  = exec (setItem "access_token" (to_string (field data "access_token"));;
          setItem "token_type" (to_string (field data "token_type"));;
          set_cookie (login_cookie (field data "access_token") (rememberMe form));;
          navigate "/dashboard")
      (exec (login_submit_start form) w).
Proof. intros Hd. destruct data; done. Qed.

(** C7. A successful login whose body holds the strings [access_token]
    and [token_type] stores them under these two keys, writes the cookie
    with max-age 604800 when the remember-me box is checked and 86400
    otherwise, and navigates to [/dashboard]. *)
Theorem login_success_stores_session (form : LoginForm) (w : World)
    (fields : list (string * Json)) (token type : string) :
  assoc "access_token" fields = Some (JStr token) →
  assoc "token_type" fields = Some (JStr type) →
  let w' := exec (login_submit form
                    (Resolved {| ok := true; body := Some (JObj fields) |})) w in
  localStorage w' !! "access_token" = Some token
  ∧ localStorage w' !! "token_type" = Some type
  ∧ cookie_writes w'
    = cookie_writes w
      ++ ["access_token=Bearer " +:+ token +:+ "; path=/; max-age="
          +:+ (if decide (lf_remember_me form = Some "on") then "604800" else "86400")
          +:+ "; SameSite=Lax"]
  ∧ location w' = Some "/dashboard".
Proof.
  intros Ha Ht w'. subst w'. rewrite login_success_world by done.
  unfold field. rewrite Ha, Ht. run. repeat split.
  - rewrite lookup_insert_ne by done. apply lookup_insert_eq.
  - apply lookup_insert_eq.
  - unfold login_cookie, rememberMe. cbn.
    case_bool_decide; case_decide; done.
Qed.

(** The scenario of the specification: alice logs in and the server
    answers 200 with the token [abc] of type [Bearer]. *)
Lemma login_success_stores_session_witness :
  let w' := exec (login_submit
                    {| lf_username := Some "alice"; lf_password := Some "pw1";
                       lf_remember_me := None |}
                    (Resolved {| ok := true;
                                 body := Some (JObj [("access_token", JStr "abc");
                                                     ("token_type", JStr "Bearer")]) |}))
                 (page ∅) in
  localStorage w' !! "access_token" = Some "abc"
  ∧ localStorage w' !! "token_type" = Some "Bearer"
  ∧ cookie_writes w' = ["access_token=Bearer abc; path=/; max-age=86400; SameSite=Lax"]
  ∧ location w' = Some "/dashboard".
Proof.
  exact (login_success_stores_session
           {| lf_username := Some "alice"; lf_password := Some "pw1";
              lf_remember_me := None |}
           (page ∅)
           [("access_token", JStr "abc"); ("token_type", JStr "Bearer")]
           "abc" "Bearer" eq_refl eq_refl).
Defined.

(** After such a login the interceptors build their header from the
    stored pair, token type included. *)
Lemma login_success_credential form w fields token type :
  assoc "access_token" fields = Some (JStr token) →
  assoc "token_type" fields = Some (JStr type) →
  token ≠ "" → type ≠ "" →
  credential (localStorage
                (exec (login_submit form
                         (Resolved {| ok := true; body := Some (JObj fields) |})) w))
  = Some (type +:+ " " +:+ token).
Proof.
  intros Ha Ht Hne1 Hne2. apply credential_Some; [| |done|done].
  - rewrite login_success_world by done. unfold field. rewrite Ha, Ht. run.
    rewrite lookup_insert_ne by done. apply lookup_insert_eq.
  - rewrite login_success_world by done. unfold field. rewrite Ha, Ht. run.
    apply lookup_insert_eq.
Qed.



(** *** Registration *)

(** C6. A registration submitted with a password that differs from its
    confirmation issues no request, whatever the network would have
    answered, and the error region of the page shows
    [Passwords do not match]; so a request goes out only when the two
    fields are equal. *)
Theorem registration_mismatch_sends_nothing (form : RegisterForm)
    (o : FetchOutcome) (w : World) :
  rf_password form ≠ rf_password_confirm form →
  let w' := exec (register_submit form o) w in
  network w' = network w
  ∧ register_submit_start form w = (Normal false, w')
  ∧ ∀ e, register_error w = Some e →
         ∃ e', register_error w' = Some e'
               ∧ textContent e' = "Passwords do not match"
               ∧ "hidden" ∉ classList e'.
Proof.
  intros Hne w'. subst w'. run. unfold passwords_differ.
  rewrite bool_decide_eq_false_2 by done. cbn.
  split; [done|]. split; [done|].
  intros e He. rewrite He. cbn. eexists. split; [reflexivity|]. split; [done|].
  cbn. intros Hin. apply list_elem_of_filter in Hin. by destruct Hin.
Qed.

Lemma registration_mismatch_sends_nothing_witness :
  let w' := exec (register_submit
                    {| rf_username := Some "alice"; rf_password := Some "pw1";
                       rf_password_confirm := Some "pw2" |} Rejected) (page ∅) in
  network w' = []
  ∧ ∃ e', register_error w' = Some e'
          ∧ textContent e' = "Passwords do not match"
          ∧ "hidden" ∉ classList e'.
Proof.
  destruct (registration_mismatch_sends_nothing
              {| rf_username := Some "alice"; rf_password := Some "pw1";
                 rf_password_confirm := Some "pw2" |} Rejected (page ∅))
    as (Hn & _ & He); [discriminate|].
  split; [exact Hn|]. exact (He banner eq_refl).
Defined.

(** With equal fields the request is issued. *)
Lemma registration_match_sends_request form w :
  rf_password form = rf_password_confirm form →
  network (exec (register_submit_start form) w)
  = network w
    ++ [{| r_url := "/auth/register"; r_method := Some "POST";
           r_headers := Some json_headers;
           r_body := Some [("username", of_field (rf_username form));
                           ("password", of_field (rf_password form))] |}].
Proof.
  intros Heq. run. unfold passwords_differ.
  rewrite bool_decide_eq_true_2 by done. reflexivity.
Qed.

(** *** Deposit *)


Lemma deposit_start_world form w b :
  deposit_button w = Some b →
  deposit_submit_start form w
  = (Normal tt,
     exec (deposit_request form) (upd_deposit_button (fmap processing) w)).
Proof. intros Hb. run. by rewrite Hb. Qed.



Lemma deposit_submit_exec form o w b :
  deposit_button w = Some b →
  exec (deposit_submit form o) w
  = exec (deposit_submit_settle form o)
      (exec (deposit_request form) (upd_deposit_button (fmap processing) w)).
Proof.
  intros Hb. unfold deposit_submit, exec, mbind, Js_bind at 1.
  by rewrite (deposit_start_world _ _ _ Hb).
Qed.







(** *** Admin actions *)









(** A click on an enabled button: the button is put in its processing
    state, then the request is issued. *)
Lemma action_start_enabled k i w b :
  buttons w !! i = Some b → disabled b = false →
  action_click_start k i w
  = (Normal (Some {| originalText := Str.trim (textContent b);
                     action := dataset b !! Kind.action_key k |}),
     exec (fetch ("/api/admin/" +:+ Kind.segment k +:+ "/"
                    +:+ data_string (dataset b !! Kind.id_key k) +:+ "/status")
             {| o_method := Some "POST"; o_headers := HShared;
                o_body := Some [("status", of_data (dataset b !! Kind.action_key k))] |})
       (upd_buttons
          (alter (λ e, set_textContent "Processing..." (set_disabled true e)) i) w)).
Proof. intros Hb Hd. run. rewrite Hb. cbn. by rewrite Hd. Qed.





(** ** Further properties of the scripts *)

(** Case analysis on what the network delivers: rejected, a body that is
    not JSON, or a parsed body of each shape, with either status. *)
Ltac outcomes o :=
  destruct o as [|[[] [[| | | | |?]|]]].

(** Run the handler, then split on whatever a [match] or [if] of the
    goal still waits for (an element of the page, a truth value). *)
Ltac crush :=
  run;
  repeat first
    [ done
    | match goal with
      | |- context [match ?x with _ => _ end] =>
          match type of x with
          | option _ => idtac
          | bool => idtac
          | Json => idtac
          end;
          let E := fresh "E" in
          destruct x eqn:E;
          repeat match goal with
                 | H : context [x] |- _ =>
                     lazymatch H with E => fail | _ => rewrite E in H end
                 end;
          run
      end ].

(** *** The interceptors leave the rest of the request alone *)

Lemma fetch_headers_other st url (hs : option (gmap string string)) (k : string) :
  k ≠ "Authorization" →
  (fetch_headers st url hs ≫= (.!! k)) = (hs ≫= (.!! k)).
Proof.
  intros Hk. unfold fetch_headers.
  destruct (Str.startsWith url "/api/"); [|done].
  destruct (credential st) as [v|]; [|done].
  destruct (negb _); cbn.
  - rewrite lookup_insert_ne by done. by destruct hs.
  - by destruct hs.
Qed.

(** X1. Neither interceptor removes or changes a header other than
    [Authorization]: every other entry of the caller's header map
    reaches the request as it was, and no other entry appears. *)
Theorem interceptors_keep_other_headers (st : gmap string string) (url : string)
    (hs : option (gmap string string)) (h : gmap string string) (k : string) :
  k ≠ "Authorization" →
  (fetch_headers st url hs ≫= (.!! k)) = (hs ≫= (.!! k))
  ∧ htmx_configRequest st url h !! k = h !! k.
Proof.
  intros Hk. split; [by apply fetch_headers_other|].
  unfold htmx_configRequest.
  destruct (Str.startsWith url "/api/"); [|done].
  destruct (credential st) as [v|]; [|done].
  by rewrite lookup_insert_ne.
Qed.

Lemma interceptors_keep_other_headers_witness :
  fetch_headers (session "abc" "Bearer") "/api/transfer" (Some json_headers)
    ≫= (.!! "Content-Type")
  = Some "application/json".
Proof.
  refine (eq_trans
            (proj1 (interceptors_keep_other_headers (session "abc" "Bearer")
                      "/api/transfer" (Some json_headers) ∅ "Content-Type" _)) _).
  - discriminate.
  - reflexivity.
Defined.

(** X2. Passing a request through an interceptor a second time changes
    nothing more: both are idempotent on the header map. *)
Theorem interceptors_idempotent (st : gmap string string) (url : string)
    (hs : option (gmap string string)) (h : gmap string string) :
  fetch_headers st url (fetch_headers st url hs) = fetch_headers st url hs
  ∧ htmx_configRequest st url (htmx_configRequest st url h)
    = htmx_configRequest st url h.
Proof.
  unfold fetch_headers, htmx_configRequest.
  destruct (Str.startsWith url "/api/"); [|done].
  destruct (credential st) as [v|] eqn:Hc; [|done].
  apply credential_inv in Hc as (token & type & _ & _ & Hne1 & Hne2 & ->).
  split; [|by rewrite insert_insert_eq].
  assert (Hv : Str.nonempty (type +:+ " " +:+ token) = true).
  { destruct type; [done|]. reflexivity. }
  destruct (negb (has_authorization (default ∅ hs))) eqn:Hn; cbn.
  - unfold has_authorization. rewrite lookup_insert_eq, Hv. reflexivity.
  - by rewrite Hn.
Qed.

(** *** The shared header map of the page script *)

Lemma fetch_headers_shared url o w :
  headers (exec (fetch url o) w)
  = match o_headers o, fetch_headers (localStorage w) url (deref (o_headers o) w) with
    | HShared, Some h => h
    | _, _ => headers w
    end.
Proof. reflexivity. Qed.

Lemma fetch_headers_authorized st url (h : gmap string string) :
  has_authorization h = true → fetch_headers st url (Some h) = Some h.
Proof.
  intros Hh. unfold fetch_headers.
  destruct (Str.startsWith url "/api/"); [|done].
  destruct (credential st); [|done]. cbn. by rewrite Hh.
Qed.

Lemma fetch_keeps_authorized_headers url o w :
  has_authorization (headers w) = true →
  headers (exec (fetch url o) w) = headers w.
Proof.
  intros Hh. rewrite fetch_headers_shared.
  destruct (o_headers o); try done. cbn.
  by rewrite fetch_headers_authorized.
Qed.

(** Fields an event leaves alone are read through these. *)
Lemma notified_headers m t w : headers (notified m t w) = headers w.
Proof. reflexivity. Qed.

Lemma dispatch_keeps_authorized_headers ev w :
  has_authorization (headers w) = true →
  headers (dispatch ev w) = headers w.
Proof.
  intros Hh.
  destruct ev as [f|f o|f|o| |o|f|o|f|f o|k i|k i c o|e|e|st]; cbn [dispatch];
    try (outcomes o; by crush);
    try (unfold htmx_afterSwap, htmx_responseError, parse_response; by crush).
  - run. rewrite Hh. run. by destruct (credential _).
  - run. destruct (deposit_button w); [|done]. run. rewrite Hh. run.
    by destruct (credential _).
  - run. destruct (buttons w !! i) as [b|]; [|done]. run.
    destruct (disabled b); [done|]. run.
    by rewrite fetch_headers_authorized.
Qed.

Lemma run_events_app evs1 evs2 w :
  run_events (evs1 ++ evs2) w = run_events evs2 (run_events evs1 w).
Proof. revert w. induction evs1 as [|ev evs1 IH]; intros w; [done|]. apply IH. Qed.

(** X3. Once the page script's header map holds a non-empty
    [Authorization], nothing that happens on the page changes that map
    again: not a later request, not a logout, not a new session written
    by a login or by another tab.  Every later request of the page
    script carries that same value. *)
Theorem page_authorization_is_sticky (evs : list Event) (w : World) (v : string)
    (url : string) (o : Options) :
  headers w !! "Authorization" = Some v → v ≠ "" →
  o_headers o = HShared →
  headers (run_events evs w) = headers w
  ∧ authorization (sent url o (run_events evs w)) = Some v.
Proof.
  intros Hv Hne Ho.
  assert (Hh : has_authorization (headers w) = true).
  { unfold has_authorization. rewrite Hv. by destruct v. }
  assert (Hk : headers (run_events evs w) = headers w).
  { clear Hv. revert w Hh. induction evs as [|ev evs IH]; intros w Hh; [done|].
    cbn. rewrite IH; [by apply dispatch_keeps_authorized_headers|].
    by rewrite dispatch_keeps_authorized_headers. }
  split; [exact Hk|].
  unfold authorization, sent. cbn [r_headers]. rewrite Ho. cbn [deref].
  rewrite Hk, fetch_headers_authorized by done. exact Hv.
Qed.

(** A page loaded under [Bearer abc] still sends [Bearer abc] on a
    transfer after a logout has emptied the storage. *)
Lemma page_authorization_is_sticky_witness :
  let w' := run_events [LogoutStart; LogoutSettle (Resolved {| ok := true; body := None |})]
              loaded_page in
  authorization
    (sent "/api/transfer"
       {| o_method := Some "POST"; o_headers := HShared; o_body := None |} w')
  = Some "Bearer abc".
Proof.
  refine (proj2 (page_authorization_is_sticky
                   [LogoutStart; LogoutSettle (Resolved {| ok := true; body := None |})]
                   loaded_page "Bearer abc" "/api/transfer"
                   {| o_method := Some "POST"; o_headers := HShared; o_body := None |}
                   _ _ eq_refl)).
  - reflexivity.
  - discriminate.
Defined.

Lemma fetch_keeps_other_shared url o w (k : string) :
  k ≠ "Authorization" →
  headers (exec (fetch url o) w) !! k = headers w !! k.
Proof.
  intros Hk. rewrite fetch_headers_shared.
  destruct (o_headers o); try done. cbn [deref].
  pose proof (fetch_headers_other (localStorage w) url (Some (headers w)) k Hk) as H.
  by destruct (fetch_headers _ _ _).
Qed.

Lemma dispatch_keeps_other_shared ev w (k : string) :
  k ≠ "Authorization" →
  headers (dispatch ev w) !! k = headers w !! k.
Proof.
  intros Hk.
  destruct ev as [f|f o|f|o| |o|f|o|f|f o|k' i|k' i c o|e|e|st]; cbn [dispatch];
    try (outcomes o; by crush);
    try (unfold htmx_afterSwap, htmx_responseError, parse_response; by crush).
  - by apply fetch_keeps_other_shared.
  - run. destruct (deposit_button w); [|done].
    by apply (fetch_keeps_other_shared "/api/deposit" (deposit_options f)
                (upd_deposit_button (fmap processing) w)).
  - run. destruct (buttons w !! i) as [b|]; [|done]. run.
    destruct (disabled b); [done|]. run.
    pose proof (fetch_headers_other (localStorage w)
                  ("/api/admin/" +:+ Kind.segment k' +:+ "/"
                   +:+ data_string (dataset b !! Kind.id_key k') +:+ "/status")
                  (Some (headers w)) k Hk) as H.
    by destruct (fetch_headers _ _ _).
Qed.

(** X4. The only entry of the page script's header map that is ever
    written after the page has loaded is [Authorization]; so every
    request of the page script is sent with
    [Content-Type: application/json], whatever happened before it. *)
Theorem page_requests_are_json (evs : list Event) (w : World)
    (url : string) (o : Options) :
  o_headers o = HShared →
  let w' := run_events evs (exec DOMContentLoaded w) in
  (∀ k, k ≠ "Authorization" →
        headers w' !! k = headers (exec DOMContentLoaded w) !! k)
  ∧ (r_headers (sent url o w') ≫= (.!! "Content-Type")) = Some "application/json".
Proof.
  intros Ho w'. subst w'.
  assert (Hk : ∀ evs w0 k, k ≠ "Authorization" →
                 headers (run_events evs w0) !! k = headers w0 !! k).
  { clear. induction evs as [|ev evs IH]; intros w0 k Hk; [done|].
    cbn. rewrite IH by done. by apply dispatch_keeps_other_shared. }
  split; [intros k; apply Hk|].
  unfold sent. cbn [r_headers]. rewrite Ho. cbn [deref].
  rewrite fetch_headers_other by done. cbn.
  rewrite Hk by done. run. unfold page_headers.
  destruct (credential _); [by rewrite lookup_insert_ne|done].
Qed.

Lemma page_requests_are_json_witness :
  r_headers
    (sent "/api/deposit" (deposit_options {| df_amount := Some "250" |})
       (run_events [TransferStart {| tf_receiver_username := Some "bob";
                                     tf_amount := Some "10" |};
                    TransferSettle Rejected]
          (exec DOMContentLoaded (page ∅))))
    ≫= (.!! "Content-Type")
  = Some "application/json".
Proof.
  exact (proj2 (page_requests_are_json
                  [TransferStart {| tf_receiver_username := Some "bob";
                                    tf_amount := Some "10" |};
                   TransferSettle Rejected]
                  (page ∅) "/api/deposit"
                  (deposit_options {| df_amount := Some "250" |}) eq_refl)).
Defined.

(** *** Who writes the session, and who sends requests *)

Lemma dispatch_keeps_session ev w :
  writes_session ev = false →
  localStorage (dispatch ev w) = localStorage w
  ∧ cookie_writes (dispatch ev w) = cookie_writes w
  ∧ location (dispatch ev w) = location w.
Proof.
  intros Hev.
  destruct ev as [f|f o|f|o| |o|f|o|f|f o|k i|k i c o|e|e|st]; try done;
    cbn [dispatch];
    try (outcomes o; by crush);
    try (unfold htmx_afterSwap, htmx_responseError, parse_response; by crush).
Qed.



Lemma dispatch_network ev w :
  ∃ l : list Request,
    network (dispatch ev w) = network w ++ l
    ∧ (List.length l ≤ (if issues_request ev then 1 else 0))%nat.
Proof.
  destruct ev as [f|f o|f|o| |o|f|o|f|f o|k i|k i c o|e|e|st]; cbn [dispatch issues_request];
    try (exists []; rewrite app_nil_r; split; [|done];
         first [ outcomes o; by crush
               | unfold htmx_afterSwap, htmx_responseError, parse_response; by crush
               | done ]);
    try (eexists [_]; split; [|done]; reflexivity).
  - run. destruct (passwords_differ f); run.
    + exists []. rewrite app_nil_r. split; [done|cbn; lia].
    + by eexists [_].
  - run. destruct (deposit_button w); run.
    + by eexists [_].
    + exists []. rewrite app_nil_r. split; [done|cbn; lia].
  - run. destruct (buttons w !! i) as [b|]; run;
      [destruct (disabled b); run|];
      first [ by eexists [_] | exists []; rewrite app_nil_r; split; [done|cbn; lia] ].
Qed.

(** X6. Requests are sent by the synchronous part of a listener only,
    one per run at most: nothing is sent when a response arrives or
    fails to (no retry), nor by the HTMX listeners.  So the page never
    has sent more requests than listeners were started. *)
Theorem requests_bounded_by_starts (evs : list Event) (w : World) :
  (List.length (network (run_events evs w))
   ≤ List.length (network w)
     + List.length (filter (λ ev, issues_request ev = true) evs))%nat.
Proof.
  revert w. induction evs as [|ev evs IH]; intros w; [cbn; lia|].
  cbn [run_events]. specialize (IH (dispatch ev w)).
  destruct (dispatch_network ev w) as (l & Hl & Hle).
  rewrite Hl, length_app in IH. rewrite filter_cons.
  destruct (issues_request ev); cbn in *.
  - case_decide; [|done]. cbn. lia.
  - case_decide; [done|]. lia.
Qed.

(** *** Login and logout *)

(** X7. A login that does not succeed (transport failure, body that is
    not JSON or is [null], status outside 2xx) stores nothing, writes no
    cookie, does not navigate and schedules nothing. *)
Theorem failed_login_changes_no_session (form : LoginForm) (o : FetchOutcome)
    (w : World) :
  login_succeeds o = false →
  let w' := exec (login_submit form o) w in
  localStorage w' = localStorage w
  ∧ cookie_writes w' = cookie_writes w
  ∧ location w' = location w
  ∧ timers w' = timers w.
Proof. intros Hs. outcomes o; try done; by crush. Qed.

Lemma failed_login_changes_no_session_witness :
  let w' := exec (login_submit
                    {| lf_username := Some "alice"; lf_password := Some "bad";
                       lf_remember_me := Some "on" |}
                    (refusal "Incorrect username or password")) (page ∅) in
  localStorage w' = ∅ ∧ cookie_writes w' = [] ∧ location w' = None ∧ timers w' = [].
Proof.
  exact (failed_login_changes_no_session
           {| lf_username := Some "alice"; lf_password := Some "bad";
              lf_remember_me := Some "on" |}
           (refusal "Incorrect username or password") (page ∅) eq_refl).
Defined.




(** X9. The three requests of the first script go out exactly with the
    headers their handler wrote: whatever session is stored, the login
    and registration requests carry [Content-Type] only and the logout
    request carries no header at all, so none of them carries
    [Authorization]. *)
Theorem auth_requests_carry_no_authorization (w : World) (lform : LoginForm)
    (rform : RegisterForm) :
  rf_password rform = rf_password_confirm rform →
  (∃ r, network (exec (login_submit_start lform) w) = network w ++ [r]
        ∧ r_url r = "/auth/login" ∧ r_headers r = Some json_headers
        ∧ authorization r = None)
  ∧ (∃ r, network (exec (register_submit_start rform) w) = network w ++ [r]
          ∧ r_url r = "/auth/register" ∧ r_headers r = Some json_headers
          ∧ authorization r = None)
  ∧ (∃ r, network (exec logout_click_start w) = network w ++ [r]
          ∧ r_url r = "/auth/logout" ∧ r_headers r = None
          ∧ authorization r = None).
Proof.
  intros Heq. split; [|split].
  - eexists. split; [reflexivity|]. done.
  - run. unfold passwords_differ. rewrite bool_decide_eq_true_2 by done. cbn.
    eexists. split; [reflexivity|]. done.
  - eexists. split; [reflexivity|]. done.
Qed.

Lemma auth_requests_carry_no_authorization_witness :
  ∃ r, network (exec logout_click_start loaded_page) = [r]
       ∧ r_url r = "/auth/logout" ∧ r_headers r = None ∧ authorization r = None.
Proof.
  exact (proj2 (proj2 (auth_requests_carry_no_authorization loaded_page
                         {| lf_username := None; lf_password := None;
                            lf_remember_me := None |}
                         {| rf_username := None; rf_password := None;
                            rf_password_confirm := None |} eq_refl))).
Defined.

Lemma dispatch_keeps_other_items ev w (k : string) :
  (∀ st, ev ≠ OtherTab st) →
  k ≠ "access_token" → k ≠ "token_type" →
  localStorage (dispatch ev w) !! k = localStorage w !! k.
Proof.
  intros Hev Hk1 Hk2.
  destruct (writes_session ev) eqn:Hw.
  - destruct ev as [ |f o| | | |o| | | | | | | | |st]; try done; cbn [dispatch].
    + outcomes o; crush; by rewrite !lookup_insert_ne.
    + outcomes o; crush; by rewrite !lookup_delete_ne.
    + by destruct (Hev st).
  - by destruct (dispatch_keeps_session ev w Hw) as [-> _].
Qed.

(** X10. The scripts read and write two entries of the storage,
    [access_token] and [token_type], and no other: whatever the page
    does, every other entry stays as it was. *)
Theorem scripts_touch_two_storage_items_only (evs : list Event) (w : World)
    (k : string) :
  Forall (λ ev, ∀ st, ev ≠ OtherTab st) evs →
  k ≠ "access_token" → k ≠ "token_type" →
  localStorage (run_events evs w) !! k = localStorage w !! k.
Proof.
  intros Hevs Hk1 Hk2. revert w.
  induction Hevs as [|ev evs Hev _ IH]; intros w; [done|].
  cbn. rewrite IH. by apply dispatch_keeps_other_items.
Qed.

Lemma scripts_touch_two_storage_items_only_witness :
  localStorage
    (run_events [LogoutStart; LogoutSettle (Resolved {| ok := true; body := None |})]
       (page (<["theme" := "dark"]> (session "abc" "Bearer"))))
    !! "theme"
  = Some "dark".
Proof.
  refine (eq_trans
            (scripts_touch_two_storage_items_only
               [LogoutStart; LogoutSettle (Resolved {| ok := true; body := None |})]
               (page (<["theme" := "dark"]> (session "abc" "Bearer")))
               "theme" _ _ _) _).
  - repeat constructor; discriminate.
  - discriminate.
  - discriminate.
  - reflexivity.
Defined.

(** X11. A login followed by a logout leaves no credential: after a
    login that succeeded and a logout call that got any response, both
    storage entries are gone, the last cookie written is the expired
    one, the page is sent to [/login], and the wrapped [fetch] adds
    nothing to a later request. *)
Theorem login_then_logout_leaves_no_credential (form : LoginForm) (data : Json)
    (r : Response) (w : World) (url : string) (hs : option (gmap string string)) :
  data ≠ JNull →
  let w' := exec (logout_click (Resolved r))
              (exec (login_submit form
                       (Resolved {| ok := true; body := Some data |})) w) in
  session_cleared w'
  ∧ credential (localStorage w') = None
  ∧ fetch_headers (localStorage w') url hs = hs.
Proof.
  intros Hd w'.
  assert (Hc : session_cleared w').
  { subst w'. unfold session_cleared. run. repeat split.
    - rewrite lookup_delete_ne by done. apply lookup_delete_eq.
    - apply lookup_delete_eq.
    - by rewrite last_snoc. }
  assert (Hn : credential (localStorage w') = None).
  { apply credential_None. destruct Hc as (Ha & _). rewrite Ha.
    intros [[? ?] _]. done. }
  split; [done|]. split; [done|].
  unfold fetch_headers. rewrite Hn. by destruct (Str.startsWith _ _).
Qed.

Lemma login_then_logout_leaves_no_credential_witness :
  let w' := exec (logout_click (Resolved {| ok := false; body := None |}))
              (exec (login_submit
                       {| lf_username := Some "alice"; lf_password := Some "pw1";
                          lf_remember_me := None |}
                       (Resolved {| ok := true;
                                    body := Some (JObj [("access_token", JStr "abc");
                                                        ("token_type", JStr "Bearer")]) |}))
                 (page ∅)) in
  session_cleared w' ∧ credential (localStorage w') = None.
Proof.
  cbn zeta.
  destruct (login_then_logout_leaves_no_credential
              {| lf_username := Some "alice"; lf_password := Some "pw1";
                 lf_remember_me := None |}
              (JObj [("access_token", JStr "abc"); ("token_type", JStr "Bearer")])
              {| ok := false; body := None |} (page ∅) "/api/transfer" None)
    as (H1 & H2 & _); [discriminate|].
  split; [exact H1 | exact H2].
Defined.

(** *** Registration *)



(** *** Transfer *)


Lemma notified_no_reload message type w :
  no_reload w → no_reload (notified message type w).
Proof.
  intros Hw ms Hin. unfold notified in Hin. cbn in Hin.
  destruct (notification_container w); [|by apply (Hw ms)].
  apply elem_of_app in Hin as [Hin|Hin]; [by apply (Hw ms)|].
  apply list_elem_of_singleton in Hin. done.
Qed.



(** *** Deposit *)




(** X15. The deposit handler has no guard of its own against a second
    submission: run again while the first request is pending (the
    control is then disabled), it sends a second request. *)
Theorem deposit_submit_is_not_guarded (form1 form2 : DepositForm) (w : World)
    (b : Element) :
  deposit_button w = Some b →
  let w1 := exec (deposit_submit_start form1) w in
  (∃ b1, deposit_button w1 = Some b1 ∧ disabled b1 = true)
  ∧ ∃ r1 r2, network (exec (deposit_submit_start form2) w1) = network w ++ [r1; r2]
             ∧ r_url r1 = "/api/deposit" ∧ r_url r2 = "/api/deposit".
Proof.
  intros Hb w1. subst w1.
  assert (H1 : exec (deposit_submit_start form1) w
               = exec (deposit_request form1) (upd_deposit_button (fmap processing) w)).
  { unfold exec at 1. by rewrite (deposit_start_world _ _ _ Hb). }
  rewrite H1. set (w1 := exec (deposit_request form1) _).
  assert (Hb1 : deposit_button w1 = Some (processing b)).
  { subst w1. cbn. by rewrite Hb. }
  split; [by eexists|].
  unfold exec at 1. rewrite (deposit_start_world _ _ _ Hb1). cbn [snd].
  exists (sent "/api/deposit" (deposit_options form1)
            (upd_deposit_button (fmap processing) w)),
         (sent "/api/deposit" (deposit_options form2)
            (upd_deposit_button (fmap processing) w1)).
  split; [|done].
  unfold deposit_request. rewrite fetch_network.
  change (network (upd_deposit_button (fmap processing) w1)) with (network w1).
  subst w1. unfold deposit_request. rewrite fetch_network.
  by rewrite <- app_assoc.
Qed.

Lemma deposit_submit_is_not_guarded_witness :
  ∃ r1 r2,
    network (exec (deposit_submit_start {| df_amount := Some "250" |})
               (exec (deposit_submit_start {| df_amount := Some "250" |}) loaded_page))
    = [r1; r2].
Proof.
  destruct (deposit_submit_is_not_guarded {| df_amount := Some "250" |}
              {| df_amount := Some "250" |} loaded_page _ eq_refl)
    as (_ & r1 & r2 & H & _).
  by exists r1, r2.
Defined.



(** X17. A deposit answered by 2xx whose body is [null], or answered on
    a page without the result panel, ends as a failure after it has
    announced a success: the success notification is followed by the
    generic error notification, the control is enabled again, the form
    is not reset and no reload is scheduled. *)
Theorem deposit_success_then_error (form : DepositForm) (data : Json) (w : World)
    (b : Element) :
  deposit_button w = Some b →
  data = JNull ∨ deposit_result w = None →
  no_reload w →
  let w' := exec (deposit_submit form
                    (Resolved {| ok := true; body := Some data |})) w in
  notification_container w'
  = (λ shown,
       shown ++ [notification "Deposit request created successfully!" "success";
                 notification "An error occurred during deposit request" "error"])
      <$> notification_container w
  ∧ deposit_button w' = Some (reenabled (processing b))
  ∧ deposit_result w' = deposit_result w
  ∧ form_resets w' = form_resets w
  ∧ no_reload w'.
Proof.
  intros Hb Hcase Hw w'. subst w'. rewrite (deposit_submit_exec _ _ _ _ Hb).
  assert (Hn : ∀ A (l : option (list A)) x y,
             (λ s, s ++ [y]) <$> ((λ s, s ++ [x]) <$> l)
             = (λ s, s ++ [x; y]) <$> l).
  { intros A [l|] x y; [|done]. cbn. by rewrite <- app_assoc. }
  assert (Ht : ∀ v v' : World, timers v' = timers v → no_reload v → no_reload v').
  { intros v v' Heq Hv ms. rewrite Heq. apply Hv. }
  pose proof (notified_no_reload "An error occurred during deposit request" "error" _
                (notified_no_reload "Deposit request created successfully!" "success"
                   _ Hw)) as Hw2.
  destruct Hcase as [->|Hr].
  - split; [|split; [|split; [|split]]].
    + run. apply Hn.
    + run. by rewrite Hb.
    + by run.
    + by run.
    + eapply Ht; [|exact Hw2]. by run.
  - split; [|split; [|split; [|split]]].
    + destruct data; run; rewrite ?Hr; run; apply Hn.
    + destruct data; run; rewrite ?Hr; run; by rewrite Hb.
    + destruct data; run; rewrite ?Hr; run; done.
    + destruct data; run; rewrite ?Hr; run; done.
    + eapply Ht; [|exact Hw2]. destruct data; run; rewrite ?Hr; by run.
Qed.

Lemma deposit_success_then_error_witness :
  notification_container
    (exec (deposit_submit {| df_amount := Some "250" |}
             (Resolved {| ok := true; body := Some JNull |})) loaded_page)
  = Some [notification "Deposit request created successfully!" "success";
          notification "An error occurred during deposit request" "error"].
Proof.
  refine (proj1 (deposit_success_then_error {| df_amount := Some "250" |} JNull
                   loaded_page _ eq_refl (or_introl eq_refl) _)).
  intros ms Hin. by apply elem_of_nil in Hin.
Defined.

(** *** Admin actions *)

Lemma action_click_exec k i o w b :
  buttons w !! i = Some b → disabled b = false →
  exec (action_click k i o) w
  = exec (action_click_settle k i
            {| originalText := Str.trim (textContent b);
               action := dataset b !! Kind.action_key k |} o)
      (exec (action_click_start k i) w)
  ∧ buttons (exec (action_click_start k i) w)
    = alter (λ e, set_textContent "Processing..." (set_disabled true e)) i (buttons w)
  ∧ notification_container (exec (action_click_start k i) w) = notification_container w
  ∧ timers (exec (action_click_start k i) w) = timers w.
Proof.
  intros Hb Hd. pose proof (action_start_enabled k i w b Hb Hd) as Hs.
  unfold action_click, exec, mbind, Js_bind. rewrite Hs. done.
Qed.



Lemma action_settle_buttons k i c o v :
  ∃ f, buttons (exec (action_click_settle k i c o) v) = alter f i (buttons v)
       ∨ buttons (exec (action_click_settle k i c o) v) = buttons v.
Proof.
  exists (λ e, set_textContent (originalText c) (set_disabled false e)).
  outcomes o; crush; auto.
Qed.

(** X19. The guard is per control.  A click on one action button, on
    any outcome, leaves every other button as it was; and while the
    request of one button is pending, a click on another enabled button
    still sends its own request. *)
Theorem action_buttons_are_independent (k1 k2 : Kind) (i j : nat)
    (o : FetchOutcome) (w : World) (bi bj : Element) :
  i ≠ j →
  buttons w !! i = Some bi → disabled bi = false →
  buttons w !! j = Some bj → disabled bj = false →
  buttons (exec (action_click k1 i o) w) !! j = Some bj
  ∧ ∃ ri rj,
      network (exec (action_click_start k2 j) (exec (action_click_start k1 i) w))
      = network w ++ [ri; rj]
      ∧ r_url ri = "/api/admin/" +:+ Kind.segment k1 +:+ "/"
                   +:+ data_string (dataset bi !! Kind.id_key k1) +:+ "/status"
      ∧ r_url rj = "/api/admin/" +:+ Kind.segment k2 +:+ "/"
                   +:+ data_string (dataset bj !! Kind.id_key k2) +:+ "/status".
Proof.
  intros Hij Hbi Hdi Hbj Hdj.
  destruct (action_click_exec k1 i o w bi Hbi Hdi) as (He & Hbs & _ & _).
  set (v := exec (action_click_start k1 i) w) in *.
  assert (Hvj : buttons v !! j = Some bj).
  { by rewrite Hbs, list_lookup_alter_ne. }
  split.
  - rewrite He.
    destruct (action_settle_buttons k1 i
                {| originalText := Str.trim (textContent bi);
                   action := dataset bi !! Kind.action_key k1 |} o v) as [f [H|H]];
      rewrite H; [by rewrite list_lookup_alter_ne|done].
  - pose proof (action_start_enabled k2 j v bj Hvj Hdj) as Hs2.
    pose proof (action_start_enabled k1 i w bi Hbi Hdi) as Hs1.
    assert (Hv : network v
                 = network w
                   ++ [sent ("/api/admin/" +:+ Kind.segment k1 +:+ "/"
                             +:+ data_string (dataset bi !! Kind.id_key k1) +:+ "/status")
                         {| o_method := Some "POST"; o_headers := HShared;
                            o_body := Some [("status",
                                             of_data (dataset bi !! Kind.action_key k1))] |}
                         (upd_buttons
                            (alter (λ e, set_textContent "Processing..."
                                           (set_disabled true e)) i) w)]).
    { subst v. unfold exec at 1. rewrite Hs1. cbn [snd]. by rewrite fetch_network. }
    unfold exec at 1. rewrite Hs2. cbn [snd]. rewrite fetch_network.
    change (network (upd_buttons ?f v)) with (network v). rewrite Hv.
    eexists _, _. split; [by rewrite <- app_assoc|]. done.
Qed.

Lemma action_buttons_are_independent_witness :
  buttons (exec (action_click Deposit 0 Rejected) loaded_page) !! 1
  = Some (button "Reject" {[ "depositId" := "42"; "depositAction" := "rejected" ]}).
Proof.
  refine (proj1 (action_buttons_are_independent Deposit Deposit 0 1 Rejected
                   loaded_page _ _ _ eq_refl eq_refl eq_refl eq_refl)).
  discriminate.
Defined.











(** X21. The wrapper writes into the header map it is given, and the
    page script gives every request the same map.  So on a page loaded
    without a session, the first request made once a session is stored
    leaves its credential in that map, and every later request of the
    page carries that credential, even after the storage has been
    replaced or emptied. *)
Theorem first_api_request_fills_shared_headers (form : TransferForm) (w : World)
    (v : string) (st : gmap string string) (url : string) (o : Options) :
  credential (localStorage w) = Some v →
  has_authorization (headers w) = false →
  o_headers o = HShared →
  let w1 := exec (transfer_submit_start form) w in
  headers w1 = <["Authorization" := v]> (headers w)
  ∧ (∃ r, network w1 = network w ++ [r] ∧ authorization r = Some v)
  ∧ authorization (sent url o (storage_replaced st w1)) = Some v.
Proof.
  intros Hc Hh Ho w1.
  assert (Hf : fetch_headers (localStorage w) "/api/transfer" (Some (headers w))
               = Some (<["Authorization" := v]> (headers w))).
  { unfold fetch_headers. cbn. by rewrite Hc, Hh. }
  assert (H1 : headers w1 = <["Authorization" := v]> (headers w)).
  { subst w1. unfold transfer_submit_start. rewrite fetch_headers_shared.
    cbn [o_headers deref]. by rewrite Hf. }
  apply credential_inv in Hc as (token & type & _ & _ & _ & Hty & ->).
  assert (Hv : Str.nonempty (type +:+ " " +:+ token) = true).
  { destruct type; [done|]. reflexivity. }
  split; [exact H1|]. split.
  - eexists. split; [apply fetch_network|].
    unfold authorization, sent. cbn [r_headers o_headers deref]. rewrite Hf. cbn.
    apply lookup_insert_eq.
  - unfold authorization, sent. cbn [r_headers]. rewrite Ho. cbn [deref].
    change (headers (storage_replaced st w1)) with (headers w1).
    rewrite fetch_headers_authorized.
    + change (headers w1 !! "Authorization" = Some (type +:+ " " +:+ token)).
      rewrite H1. apply lookup_insert_eq.
    + unfold has_authorization. by rewrite H1, lookup_insert_eq.
Qed.

Lemma first_api_request_fills_shared_headers_witness :
  let w := storage_replaced (session "abc" "Bearer") (exec DOMContentLoaded (page ∅)) in
  let w1 := exec (transfer_submit_start
                    {| tf_receiver_username := Some "bob"; tf_amount := Some "10" |}) w in
  authorization (sent "/api/deposit" (deposit_options {| df_amount := Some "5" |})
                   (storage_replaced ∅ w1))
  = Some "Bearer abc".
Proof.
  exact (proj2 (proj2 (first_api_request_fills_shared_headers
                         {| tf_receiver_username := Some "bob"; tf_amount := Some "10" |}
                         (storage_replaced (session "abc" "Bearer")
                            (exec DOMContentLoaded (page ∅)))
                         "Bearer abc" ∅ "/api/deposit"
                         (deposit_options {| df_amount := Some "5" |})
                         eq_refl eq_refl eq_refl))).
Defined.

(** *** Notifications and the HTMX listeners *)




(** *** Amounts *)











